(** * Section 1 of the NCEMS webinar notebooks: contingency table and
      Fisher's exact test

    The notebook [1.1-section] loads a table of proteins into the pandas
    frame [data1], counts four cells [a], [b], [c], [d] with boolean masks,
    arranges them in the frame [contingency_table] and hands that frame to
    [scipy.stats.fisher_exact].  This file embeds those cells: Python
    values with the [==] the masks use, a column-oriented model of a pandas
    frame, the four counting expressions, the int64 array scipy converts
    the table to, and the control flow of [fisher_exact] on a 2x2 table. *)

From Stdlib Require Import String ZArith List Bool Lia Floats Uint63 Permutation.
Import ListNotations.

Local Open Scope string_scope.
Local Open Scope Z_scope.

(** ** Python exceptions and results *)

Inductive exn : Type :=
| KeyError (key : string)
| ValueError (msg : string)
| OverflowError (msg : string).

Inductive py (A : Type) : Type :=
| Returned (x : A)
| Raised (e : exn).

Arguments Returned {A} x.
Arguments Raised {A} e.

Definition bind {A B : Type} (m : py A) (k : A -> py B) : py B :=
  match m with
  | Returned x => k x
  | Raised e => Raised e
  end.

Declare Scope py_scope.
Delimit Scope py_scope with py.
Notation "x <- m ;; k" := (bind m (fun x => k))
  (at level 61, m at next level, right associativity) : py_scope.
Local Open Scope py_scope.

(** ** Python values held in the cells of a frame *)

Inductive pyval : Type :=
| PyNone
| PyBool (v : bool)
| PyInt (v : Z)
| PyFloat (v : float)
| PyStr (v : string).

Definition float_of_bool (x : bool) : float := if x then 1%float else 0%float.

(** [v == x] for a bool literal [x]: Python's bool is an int, so [True]
    equals [1] and [1.0]; a string or [None] equals no bool, and neither
    does NaN, by IEEE comparison. *)
Definition eq_bool (v : pyval) (x : bool) : bool :=
  match v with
  | PyNone => false
  | PyBool y => Bool.eqb y x
  | PyInt z => z =? Z.b2z x
  | PyFloat f => PrimFloat.eqb f (float_of_bool x)
  | PyStr _ => false
  end.

(** [pandas.isna]: [None] and NaN are the missing values. *)
Definition isna (v : pyval) : bool :=
  match v with
  | PyNone => true
  | PyFloat f => is_nan f
  | _ => false
  end.

Definition is_bool (v : pyval) : bool :=
  match v with
  | PyBool _ => true
  | _ => false
  end.

(** ** pandas: series and frames *)

(** A series is the list of its values in index order; the series the
    notebook builds all come from one frame and share its index. *)
Definition Series (A : Type) : Type := list A.

(** [series == x], element by element *)
Definition series_eq (s : Series pyval) (x : bool) : Series bool :=
  map (fun v => eq_bool v x) s.

(** [m1 & m2] on boolean series over the same index *)
Fixpoint series_and (m1 m2 : Series bool) : Series bool :=
  match m1, m2 with
  | x :: m1', y :: m2' => (x && y) :: series_and m1' m2'
  | _, _ => []
  end.

(** the entries of [xs] at the positions where the mask holds *)
Fixpoint select {A : Type} (mask : Series bool) (xs : list A) : list A :=
  match mask, xs with
  | keep :: mask', x :: xs' =>
      if keep then x :: select mask' xs' else select mask' xs'
  | _, _ => []
  end.

(** A frame: the row labels and the columns in order, each a name with a
    series.  [I] is the type of row labels, [A] of cell values. *)
Record DataFrame (I A : Type) : Type := mkDataFrame {
  index : list I;
  data : list (string * Series A)
}.

Arguments mkDataFrame {I A} index data.
Arguments index {I A} _.
Arguments data {I A} _.

(** every column is as long as the index (pandas keeps frames rectangular) *)
Definition well_formed {I A : Type} (df : DataFrame I A) : Prop :=
  Forall (fun col => length (snd col) = length (index df)) (data df).

Fixpoint lookup {A : Type} (name : string) (cols : list (string * A)) : option A :=
  match cols with
  | [] => None
  | (n, s) :: rest => if String.eqb n name then Some s else lookup name rest
  end.

(** [df[name]] *)
Definition getitem {I A : Type} (df : DataFrame I A) (name : string) : py (Series A) :=
  match lookup name (data df) with
  | Some s => Returned s
  | None => Raised (KeyError name)
  end.

(** [df[mask]] for a boolean series: the rows where the mask holds; a mask
    of another length than the frame is refused. *)
Definition getitem_mask {I A : Type} (df : DataFrame I A) (mask : Series bool)
  : py (DataFrame I A) :=
  if Nat.eqb (length mask) (length (index df)) then
    Returned (mkDataFrame (select mask (index df))
                          (map (fun col => (fst col, select mask (snd col))) (data df)))
  else Raised (ValueError "Item wrong length").

(** [len(df)]: the number of rows *)
Definition len {I A : Type} (df : DataFrame I A) : Z := Z.of_nat (length (index df)).

(** [pd.DataFrame(columns, index = labels)] from a dict of lists *)
Definition DataFrame_new {I A : Type} (columns : list (string * list A)) (labels : list I)
  : py (DataFrame I A) :=
  if forallb (fun col => Nat.eqb (length (snd col)) (length labels)) columns then
    Returned (mkDataFrame labels columns)
  else Raised (ValueError "Length of values does not match length of index").

(** ** numpy: 64-bit integers and their conversion to double *)

Module Int64.

Definition min_value : Z := - 2 ^ 63.
Definition max_value : Z := 2 ^ 63 - 1.

Definition in_range (z : Z) : bool := (min_value <=? z) && (z <=? max_value).

(** two's complement wrap-around of an integer result *)
Definition wrap (z : Z) : Z := (z + 2 ^ 63) mod 2 ^ 64 - 2 ^ 63.

Definition add (x y : Z) : Z := wrap (x + y).
Definition mul (x y : Z) : Z := wrap (x * y).

(** conversion to float64, rounding to nearest; the magnitude of every
    int64 but the least fits the 63-bit unsigned primitive *)
Definition to_float (z : Z) : float :=
  if z =? min_value then (-9223372036854775808)%float
  else if z <? 0 then PrimFloat.opp (PrimFloat.of_uint63 (Uint63.of_Z (- z)))
  else PrimFloat.of_uint63 (Uint63.of_Z z).

(** [x / y] on int64 scalars is true division in float64 *)
Definition true_divide (x y : Z) : float :=
  PrimFloat.div (to_float x) (to_float y).

End Int64.

(** a two-dimensional int64 array, as the list of its rows *)
Definition ndarray : Type := list (list Z).

(** the cell values of a frame, row by row *)
Definition values {I : Type} (df : DataFrame I Z) : list (list Z) :=
  map (fun i => map (fun col => nth i (snd col) 0) (data df))
      (seq 0 (length (index df))).

(** [np.asarray(table, dtype = np.int64)] *)
Definition asarray_int64 {I : Type} (table : DataFrame I Z) : py ndarray :=
  let c := values table in
  if forallb (forallb Int64.in_range) c then Returned c
  else Raised (OverflowError "Python int too large to convert to C long").

(** ** scipy.stats.fisher_exact on a 2x2 table *)

(** [fisher_exact] is the library's function, not the notebook's; what
    follows is its path for a 2x2 table, after the library's code.

    The p-value is a double.  With an empty margin it is the literal 1.0;
    otherwise it comes out of scipy's hypergeometric distribution routines
    ([pmf], [cdf], [sf], through [exp] and log-gamma), which are recorded
    here by their arguments and not evaluated. *)
Inductive pvalue : Type :=
| Literal (p : float)
| Hypergeom (alternative : string) (x n1 n2 n : Z).

Definition known_alternative (alternative : string) : bool :=
  String.eqb alternative "two-sided" || String.eqb alternative "less"
  || String.eqb alternative "greater".

(** [fisher_exact(table, alternative)]: the statistic (the sample odds
    ratio) and the p-value.  The checks come in the order of the library:
    shape, sign, empty margin, then the odds ratio on int64 products. *)
Definition fisher_exact {I : Type} (table : DataFrame I Z) (alternative : string)
  : py (float * pvalue) :=
  c <- asarray_int64 table ;;
  match c with
  | [[c00; c01]; [c10; c11]] =>
      if (c00 <? 0) || (c01 <? 0) || (c10 <? 0) || (c11 <? 0) then
        Raised (ValueError "All values in `table` must be nonnegative.")
      else if (Int64.add c00 c10 =? 0) || (Int64.add c01 c11 =? 0)
              || (Int64.add c00 c01 =? 0) || (Int64.add c10 c11 =? 0) then
        Returned (PrimFloat.nan, Literal 1%float)
      else
        let oddsratio :=
          if (c10 >? 0) && (c01 >? 0)
          then Int64.true_divide (Int64.mul c00 c11) (Int64.mul c10 c01)
          else PrimFloat.infinity in
        let n1 := Int64.add c00 c01 in
        let n2 := Int64.add c10 c11 in
        let n := Int64.add c00 c10 in
        if known_alternative alternative then
          Returned (oddsratio, Hypergeom alternative c00 n1 n2 n)
        else
          Raised (ValueError "`alternative` should be one of {'two-sided', 'less', 'greater'}")
  | _ => Raised (ValueError "The input `table` must be of shape (2, 2).")
  end.

(** ** The notebook, Step 3 *)

(** what the two code cells leave behind *)
Record Analysis : Type := mkAnalysis {
  cell_a : Z;
  cell_b : Z;
  cell_c : Z;
  cell_d : Z;
  table : DataFrame string Z;
  odds_ratio : float;
  fisher_p_value : pvalue
}.

Module Notebook.

Definition a (data1 : DataFrame nat pyval) : py Z :=
  ne <- getitem data1 "NativeEnt" ;;
  nr <- getitem data1 "NonRefoldable" ;;
  rows <- getitem_mask data1 (series_and (series_eq ne true) (series_eq nr true)) ;;
  Returned (len rows).

Definition b (data1 : DataFrame nat pyval) : py Z :=
  ne <- getitem data1 "NativeEnt" ;;
  nr <- getitem data1 "NonRefoldable" ;;
  rows <- getitem_mask data1 (series_and (series_eq ne true) (series_eq nr false)) ;;
  Returned (len rows).

Definition c (data1 : DataFrame nat pyval) : py Z :=
  ne <- getitem data1 "NativeEnt" ;;
  nr <- getitem data1 "NonRefoldable" ;;
  rows <- getitem_mask data1 (series_and (series_eq ne false) (series_eq nr true)) ;;
  Returned (len rows).

Definition d (data1 : DataFrame nat pyval) : py Z :=
  ne <- getitem data1 "NativeEnt" ;;
  nr <- getitem data1 "NonRefoldable" ;;
  rows <- getitem_mask data1 (series_and (series_eq ne false) (series_eq nr false)) ;;
  Returned (len rows).

(** the frame built from the four counts: one column per outcome, one
    row per feature value *)
Definition contingency_table (va vb vc vd : Z) : py (DataFrame string Z) :=
  DataFrame_new [("Protein Misfolded", [va; vc]);
                 ("Protein Not Misfolded", [vb; vd])]
                ["Protein Entangled"; "Protein Not Entangled"].

(** the test on a table of given counts, as the last code cell calls it *)
Definition test (va vb vc vd : Z) : py (float * pvalue) :=
  t <- contingency_table va vb vc vd ;;
  fisher_exact t "two-sided".

(** both code cells of Step 3 in sequence *)
Definition step3 (data1 : DataFrame nat pyval) : py Analysis :=
  va <- a data1 ;;
  vb <- b data1 ;;
  vc <- c data1 ;;
  vd <- d data1 ;;
  t <- contingency_table va vb vc vd ;;
  r <- fisher_exact t "two-sided" ;;
  Returned (mkAnalysis va vb vc vd t (fst r) (snd r)).

End Notebook.

(** ** The observation records behind the counts *)

(** one record: the values of [NativeEnt] (the feature) and of
    [NonRefoldable] (the outcome) in one row *)
Definition record : Type := (pyval * pyval)%type.

Definition feature_present (r : record) : pyval := fst r.
Definition outcome_present (r : record) : pyval := snd r.

(** the rows of [data1] restricted to the two attributes *)
Definition observations (data1 : DataFrame nat pyval) : py (list record) :=
  ne <- getitem data1 "NativeEnt" ;;
  nr <- getitem data1 "NonRefoldable" ;;
  Returned (combine ne nr).

Definition count (p : record -> bool) (obs : list record) : Z :=
  Z.of_nat (length (filter p obs)).

(** the value of the mask [(NativeEnt == x) & (NonRefoldable == y)] at a record *)
Definition in_cell (x y : bool) (r : record) : bool :=
  eq_bool (feature_present r) x && eq_bool (outcome_present r) y.

(** the record holds exactly the booleans [x] and [y] *)
Definition is_exactly (x y : bool) (r : record) : bool :=
  match r with
  | (PyBool f, PyBool o) => Bool.eqb f x && Bool.eqb o y
  | _ => false
  end.

(** in how many of the four cells a record is counted *)
Definition cells_containing (r : record) : nat :=
  (Nat.b2n (in_cell true true r) + Nat.b2n (in_cell true false r)
   + Nat.b2n (in_cell false true r) + Nat.b2n (in_cell false false r))%nat.

(** a record is complete when neither attribute is missing *)
Definition complete (r : record) : bool :=
  negb (isna (feature_present r)) && negb (isna (outcome_present r)).

Definition both_boolean (r : record) : bool :=
  is_bool (feature_present r) && is_bool (outcome_present r).

(** the number of records left out for a missing value *)
Definition dropped_record_count (obs : list record) : Z :=
  count (fun r => negb (complete r)) obs.

(** An observation set in the sense of the data model: each attribute of
    each record is a boolean, or is missing. *)
Definition boolean_or_missing (v : pyval) : Prop :=
  is_bool v = true \/ isna v = true.

Definition observation_set (obs : list record) : Prop :=
  Forall (fun r => boolean_or_missing (feature_present r)
                   /\ boolean_or_missing (outcome_present r)) obs.

(** [data1.dropna(subset = ["NativeEnt", "NonRefoldable"])]: the frame
    without its incomplete records.  The notebook never calls it; it is
    the frame its counts are compared with below. *)
Definition dropna (data1 : DataFrame nat pyval) : py (DataFrame nat pyval) :=
  obs <- observations data1 ;;
  getitem_mask data1 (map complete obs).

(** the first component of what the test returns, if it returns *)
Definition statistic (result : py (float * pvalue)) : option float :=
  match result with
  | Returned r => Some (fst r)
  | Raised _ => None
  end.

(** the table has an empty row or an empty column *)
Definition zero_margin (va vb vc vd : Z) : Prop :=
  va + vb = 0 \/ vc + vd = 0 \/ va + vc = 0 \/ vb + vd = 0.

(** the frame that [contingency_table] holds for given counts *)
Definition table_of (va vb vc vd : Z) : DataFrame string Z :=
  mkDataFrame ["Protein Entangled"; "Protein Not Entangled"]
              [("Protein Misfolded", [va; vc]); ("Protein Not Misfolded", [vb; vd])].

(** ** The rest of the notebook's code *)

(** [len(series)] *)
Definition series_len {A : Type} (s : Series A) : Z := Z.of_nat (length s).

(** the column names of a frame, in order *)
Definition columns {I A : Type} (df : DataFrame I A) : list string :=
  map fst (data df).

(** [df.head(n)]: the rows before position [n]; a negative [n] counts
    from the end, as the slice [[:n]] does *)
Definition head {I A : Type} (df : DataFrame I A) (n : Z) : DataFrame I A :=
  let k := if 0 <=? n then Z.to_nat n else Z.to_nat (len df + n) in
  mkDataFrame (firstn k (index df))
              (map (fun col => (fst col, firstn k (snd col))) (data df)).

(** a double against an integer, compared exactly as Python compares a
    float with an int *)
Definition float_eq_int (f : float) (z : Z) : bool :=
  match Prim2SF f with
  | S754_zero _ => z =? 0
  | S754_finite s m e =>
      let v := if s then Z.neg m else Z.pos m in
      if 0 <=? e then z =? v * 2 ^ e else z * 2 ^ (- e) =? v
  | _ => false
  end.

(** whether two values are one key of pandas' hash table of objects:
    Python's [==] (a bool is an int, numbers compare by value), and all
    NaN are one key *)
Definition same_key (v w : pyval) : bool :=
  match v, w with
  | PyNone, PyNone => true
  | PyStr s, PyStr t => String.eqb s t
  | PyBool x, PyBool y => Bool.eqb x y
  | PyBool x, PyInt z | PyInt z, PyBool x => z =? Z.b2z x
  | PyInt z, PyInt z' => z =? z'
  | PyBool x, PyFloat f | PyFloat f, PyBool x => float_eq_int f (Z.b2z x)
  | PyInt z, PyFloat f | PyFloat f, PyInt z => float_eq_int f z
  | PyFloat f, PyFloat g => PrimFloat.eqb f g || (is_nan f && is_nan g)
  | _, _ => false
  end.

(** [series.unique()]: the values in order of first appearance; [seen]
    holds the keys already in the table *)
Fixpoint unique_from (seen : list pyval) (s : Series pyval) : Series pyval :=
  match s with
  | [] => []
  | v :: s' =>
      if existsb (fun k => same_key k v) seen then unique_from seen s'
      else v :: unique_from (seen ++ [v]) s'
  end.

Definition unique (s : Series pyval) : Series pyval := unique_from [] s.

(** no two entries of the series share a key *)
Definition distinct_keys (s : Series pyval) : Prop :=
  ForallOrdPairs (fun v w => same_key v w = false) s.

(** the value has none of the keys seen so far *)
Definition unseen (seen : list pyval) (v : pyval) : Prop :=
  forall k, In k seen -> same_key k v = false.

(** [df.reset_index()]: the row labels become the first column, named
    [index], or [level_0] when a column [index] exists (and refused when
    that name is taken too); the rows are numbered anew *)
Definition reset_index (df : DataFrame string Z) : py (DataFrame nat pyval) :=
  let name := if existsb (String.eqb "index") (columns df) then "level_0" else "index" in
  if existsb (String.eqb name) (columns df) then
    Raised (ValueError ("cannot insert " ++ name ++ ", already exists"))
  else
    Returned (mkDataFrame (seq 0 (length (index df)))
                ((name, map PyStr (index df))
                 :: map (fun col => (fst col, map PyInt (snd col))) (data df))).

(** [df.values.tolist()] on a frame of objects: the rows as lists *)
Definition values_tolist (df : DataFrame nat pyval) : list (list pyval) :=
  map (fun i => map (fun col => nth i (snd col) PyNone) (data df))
      (seq 0 (length (index df))).

(** the second code cell, "Explore the data" *)
Module Explore.

(** [data1.head(10)], the frame that is displayed *)
Definition first_rows (data1 : DataFrame nat pyval) : DataFrame nat pyval :=
  head data1 10.

(** [len(data1["gene"].unique())] *)
Definition unique_genes (data1 : DataFrame nat pyval) : py Z :=
  gene <- getitem data1 "gene" ;;
  Returned (series_len (unique gene)).

End Explore.

(** the rows that one of the four counting lines selects,
    [data1[(data1["NativeEnt"] == x) & (data1["NonRefoldable"] == y)]] *)
Definition rows_of_cell (data1 : DataFrame nat pyval) (x y : bool)
  : py (DataFrame nat pyval) :=
  ne <- getitem data1 "NativeEnt" ;;
  nr <- getitem data1 "NonRefoldable" ;;
  getitem_mask data1 (series_and (series_eq ne x) (series_eq nr y)).

(** what the third code cell hands to [ax.table] *)
Module Display.

Definition cell_text (contingency_table : DataFrame string Z)
  : py (list (list pyval)) :=
  shown <- reset_index contingency_table ;;
  Returned (values_tolist shown).

Definition col_labels (contingency_table : DataFrame string Z) : list string :=
  "" :: columns contingency_table.

End Display.

(** ** Sample frames *)

Definition no_rows : DataFrame nat pyval :=
  mkDataFrame [] [("buff", []); ("gene", []); ("NativeEnt", []); ("NonRefoldable", [])].

Definition six_proteins : DataFrame nat pyval :=
  mkDataFrame [0; 1; 2; 3; 4; 5]%nat
    [("buff", [PyStr "C"; PyStr "C"; PyStr "C"; PyStr "C"; PyStr "C"; PyStr "C"]);
     ("gene", [PyStr "P0A6A8"; PyStr "P0A6F5"; PyStr "P0A7V0"; PyStr "P0A9P0";
               PyStr "P0ABB0"; PyStr "P0AG30"]);
     ("NativeEnt", [PyBool true; PyBool true; PyBool false; PyBool false;
                    PyFloat PrimFloat.nan; PyBool true]);
     ("NonRefoldable", [PyBool true; PyBool false; PyBool true; PyBool false;
                        PyBool true; PyNone])].

(** the records of [six_proteins] *)
Definition six_records : list record :=
  [(PyBool true, PyBool true); (PyBool true, PyBool false);
   (PyBool false, PyBool true); (PyBool false, PyBool false);
   (PyFloat PrimFloat.nan, PyBool true); (PyBool true, PyNone)].

(** the records of [only_gaps] and of [none_entangled] *)
Definition gap_records : list record :=
  [(PyNone, PyBool false); (PyBool true, PyFloat PrimFloat.nan)].

Definition none_entangled_records : list record :=
  [(PyBool false, PyBool true); (PyBool false, PyBool false);
   (PyBool false, PyBool true)].

(** no entangled protein at all: the first row of the table is empty *)
Definition none_entangled : DataFrame nat pyval :=
  mkDataFrame [0; 1; 2]%nat
    [("buff", [PyStr "C"; PyStr "C"; PyStr "C"]);
     ("gene", [PyStr "P0A6A8"; PyStr "P0A6F5"; PyStr "P0A7V0"]);
     ("NativeEnt", [PyBool false; PyBool false; PyBool false]);
     ("NonRefoldable", [PyBool true; PyBool false; PyBool true])].

(** one complete record, and the same with an incomplete record added *)
Definition one_protein : DataFrame nat pyval :=
  mkDataFrame [0]%nat
    [("buff", [PyStr "C"]); ("gene", [PyStr "P0A6A8"]);
     ("NativeEnt", [PyBool true]); ("NonRefoldable", [PyBool true])].

Definition one_protein_and_a_gap : DataFrame nat pyval :=
  mkDataFrame [0; 1]%nat
    [("buff", [PyStr "C"; PyStr "C"]); ("gene", [PyStr "P0A6A8"; PyStr "P0A6F5"]);
     ("NativeEnt", [PyBool true; PyFloat PrimFloat.nan]);
     ("NonRefoldable", [PyBool true; PyBool true])].

(** every record of the frame lacks a value *)
Definition only_gaps : DataFrame nat pyval :=
  mkDataFrame [0; 1]%nat
    [("buff", [PyStr "C"; PyStr "C"]); ("gene", [PyStr "P0A6A8"; PyStr "P0A6F5"]);
     ("NativeEnt", [PyNone; PyBool true]);
     ("NonRefoldable", [PyBool false; PyFloat PrimFloat.nan])].

(** a frame without the outcome column *)
Definition no_outcome_column : DataFrame nat pyval :=
  mkDataFrame [0; 1]%nat
    [("gene", [PyStr "P0A6A8"; PyStr "P0A6F5"]);
     ("NativeEnt", [PyBool true; PyBool false])].

(** [six_proteins] with its rows in reverse order and without [buff] *)
Definition six_proteins_shuffled : DataFrame nat pyval :=
  mkDataFrame [5; 4; 3; 2; 1; 0]%nat
    [("gene", [PyStr "P0AG30"; PyStr "P0ABB0"; PyStr "P0A9P0"; PyStr "P0A7V0";
               PyStr "P0A6F5"; PyStr "P0A6A8"]);
     ("NonRefoldable", [PyNone; PyBool true; PyBool false; PyBool true;
                        PyBool false; PyBool true]);
     ("NativeEnt", [PyBool true; PyFloat PrimFloat.nan; PyBool false; PyBool false;
                    PyBool true; PyBool true])].

(** a gene column with a repeated identifier *)
Definition repeated_gene : DataFrame nat pyval :=
  mkDataFrame [0; 1; 2]%nat
    [("gene", [PyStr "P0A6A8"; PyStr "P0A6F5"; PyStr "P0A6A8"]);
     ("NativeEnt", [PyBool true; PyBool false; PyBool true]);
     ("NonRefoldable", [PyBool true; PyBool false; PyBool true])].

(** * Properties *)

(** ** The model at work *)

Example true_equals_one :
  eq_bool (PyInt 1) true = true /\ eq_bool (PyFloat 1%float) true = true.
Proof. split; reflexivity. Qed.

Example nan_equals_no_bool :
  eq_bool (PyFloat PrimFloat.nan) true = false
  /\ eq_bool (PyFloat PrimFloat.nan) false = false.
Proof. split; reflexivity. Qed.

Example text_equals_no_bool :
  eq_bool (PyStr "True") true = false /\ eq_bool PyNone false = false.
Proof. split; reflexivity. Qed.

Example missing_column_raises :
  Notebook.a (mkDataFrame [0]%nat [("NativeEnt", [PyBool true])])
  = Raised (KeyError "NonRefoldable").
Proof. reflexivity. Qed.

Example step3_six_proteins :
  Notebook.step3 six_proteins =
  Returned (mkAnalysis 1 1 1 1 (table_of 1 1 1 1) 1%float
                       (Hypergeom "two-sided" 1 2 2 2)).
Proof. vm_compute. reflexivity. Qed.

Example int64_product_wraps :
  Int64.mul 4294967296 4294967296 = 0
  /\ Int64.mul 3037000500 3037000500 = -9223372036709301616.
Proof. split; reflexivity. Qed.

(** ** IEEE comparison *)

Section FloatFacts.

Lemma one_SF : Prim2SF 1%float = S754_finite false 4503599627370496 (-52).
Proof. vm_compute. reflexivity. Qed.

Lemma zero_SF : Prim2SF 0%float = S754_zero false.
Proof. vm_compute. reflexivity. Qed.

Lemma infinity_SF : Prim2SF infinity = S754_infinity false.
Proof. vm_compute. reflexivity. Qed.

(** a specification float that is not NaN compares equal to itself *)
Lemma SFeqb_refl_or_nan (x : spec_float) :
  SFeqb x x = true \/ x = S754_nan.
Proof.
  unfold SFeqb.
  destruct x as [s | s | | s m e]; simpl; auto.
  - destruct s; auto.
  - rewrite Z.compare_refl, Pos.compare_cont_refl. destruct s; auto.
Qed.

Lemma is_nan_Prim2SF (f : float) :
  is_nan f = true -> Prim2SF f = S754_nan.
Proof.
  unfold is_nan. rewrite FloatAxioms.eqb_spec. intros H.
  destruct (SFeqb_refl_or_nan (Prim2SF f)) as [E | E]; [| exact E].
  rewrite E in H. discriminate.
Qed.

(** NaN equals nothing *)
Lemma nan_eqb_false (f g : float) :
  is_nan f = true -> PrimFloat.eqb f g = false.
Proof.
  intros H. rewrite FloatAxioms.eqb_spec, (is_nan_Prim2SF f H). reflexivity.
Qed.

(** no double equals both 1.0 and 0.0 *)
Lemma eqb_one_not_zero (f : float) :
  PrimFloat.eqb f 1%float = true -> PrimFloat.eqb f 0%float = false.
Proof.
  rewrite !FloatAxioms.eqb_spec, one_SF, zero_SF.
  unfold SFeqb.
  destruct (Prim2SF f) as [s | s | | s m e]; cbn [SFcompare].
  - destruct s; discriminate.
  - destruct s; discriminate.
  - discriminate.
  - intros _. destruct s; reflexivity.
Qed.

(** a finite double is not equal to infinity *)
Lemma finite_eqb_infinity (f : float) :
  is_finite f = true -> PrimFloat.eqb f infinity = false.
Proof.
  unfold is_finite, is_infinity. intros H.
  apply negb_true_iff, orb_false_iff in H. destruct H as [_ H].
  rewrite FloatAxioms.eqb_spec, FloatAxioms.abs_spec, infinity_SF in H.
  rewrite FloatAxioms.eqb_spec, infinity_SF.
  unfold SFeqb in *.
  destruct (Prim2SF f) as [s | s | | s m e]; cbn [SFcompare SFabs] in *.
  - destruct s; reflexivity.
  - destruct s; [reflexivity | discriminate].
  - reflexivity.
  - destruct s; reflexivity.
Qed.

End FloatFacts.

(** ** Comparison of a cell value with a bool *)

Section ValueFacts.

(** a missing value equals neither [True] nor [False] *)
Lemma isna_eq_bool (v : pyval) (x : bool) :
  isna v = true -> eq_bool v x = false.
Proof.
  destruct v as [ | y | z | f | s]; simpl; try discriminate; try reflexivity.
  intros H. now apply nan_eqb_false.
Qed.

(** no value equals both [True] and [False] *)
Lemma eq_bool_exclusive (v : pyval) :
  eq_bool v true = true -> eq_bool v false = false.
Proof.
  destruct v as [ | y | z | f | s]; simpl; try discriminate.
  - destruct y; [reflexivity | discriminate].
  - intros H. apply Z.eqb_eq in H. subst z. reflexivity.
  - apply eqb_one_not_zero.
Qed.

Lemma eq_bool_unique (v : pyval) (x x' : bool) :
  eq_bool v x = true -> eq_bool v x' = true -> x = x'.
Proof.
  intros H H'.
  destruct x, x'; try reflexivity.
  - rewrite (eq_bool_exclusive v H) in H'. discriminate.
  - rewrite (eq_bool_exclusive v H') in H. discriminate.
Qed.

Lemma eq_bool_PyBool (y x : bool) : eq_bool (PyBool y) x = Bool.eqb y x.
Proof. reflexivity. Qed.

(** on a boolean or missing value, [== x] holds exactly for the bool [x] *)
Lemma eq_bool_on_boolean_or_missing (v : pyval) (x : bool) :
  boolean_or_missing v ->
  eq_bool v x = match v with PyBool y => Bool.eqb y x | _ => false end.
Proof.
  intros [H | H].
  - destruct v; try discriminate. reflexivity.
  - rewrite (isna_eq_bool v x H). destruct v; try discriminate; reflexivity.
Qed.

Lemma boolean_or_missing_complete (v : pyval) :
  boolean_or_missing v -> negb (isna v) = is_bool v.
Proof.
  intros [H | H].
  - destruct v; try discriminate. reflexivity.
  - rewrite H. destruct v; try discriminate; reflexivity.
Qed.

End ValueFacts.

(** ** Masks, selections and counts *)

Section MaskFacts.

Context {A : Type}.

Lemma series_and_map (f g : pyval -> bool) (s1 s2 : Series pyval) :
  series_and (map f s1) (map g s2)
  = map (fun r => f (fst r) && g (snd r)) (combine s1 s2).
Proof.
  revert s2. induction s1 as [| v s1 IH]; intros [| w s2]; simpl; try reflexivity.
  now rewrite IH.
Qed.

Lemma select_map_length {B : Type} (p : A -> bool) (l : list A) (xs : list B) :
  length xs = length l ->
  length (select (map p l) xs) = length (filter p l).
Proof.
  revert xs. induction l as [| r l IH]; intros [| i xs]; simpl; intros H;
    try reflexivity; try discriminate.
  injection H as H. destruct (p r); simpl; now rewrite IH.
Qed.

Lemma lookup_In (name : string) (cols : list (string * Series A)) (s : Series A) :
  lookup name cols = Some s -> exists n, In (n, s) cols.
Proof.
  induction cols as [| [n s'] cols IH]; simpl; [discriminate |].
  destruct (String.eqb n name).
  - intros [= ->]. exists n. now left.
  - intros H. destruct (IH H) as [n' Hin]. exists n'. now right.
Qed.

Lemma filter_length_le (p : A -> bool) (l : list A) :
  (length (filter p l) <= length l)%nat.
Proof.
  induction l as [| r l IH]; simpl; [lia |]. destruct (p r); simpl; lia.
Qed.

(** counting with two predicates that agree on the list *)
Lemma filter_length_ext (p q : A -> bool) (l : list A) :
  (forall r, In r l -> p r = q r) ->
  length (filter p l) = length (filter q l).
Proof.
  induction l as [| r l IH]; simpl; intros H; [reflexivity |].
  rewrite (H r (or_introl eq_refl)).
  destruct (q r); simpl; rewrite IH; auto.
Qed.

(** counting by cases: the sum of the counts is the count of the sum *)
Lemma filter_length_b2n (p : A -> bool) (l : list A) :
  length (filter p l) = list_sum (map (fun r => Nat.b2n (p r)) l).
Proof.
  induction l as [| r l IH]; simpl; [reflexivity |].
  destruct (p r); simpl; now rewrite IH.
Qed.

Lemma list_sum_map_add (f g : A -> nat) (l : list A) :
  list_sum (map (fun r => (f r + g r)%nat) l)
  = (list_sum (map f l) + list_sum (map g l))%nat.
Proof.
  induction l as [| r l IH]; simpl; [reflexivity |]. rewrite IH. lia.
Qed.

Lemma list_sum_map_ext (f g : A -> nat) (l : list A) :
  (forall r, In r l -> f r = g r) ->
  list_sum (map f l) = list_sum (map g l).
Proof.
  induction l as [| r l IH]; simpl; intros H; [reflexivity |].
  rewrite (H r (or_introl eq_refl)), IH; auto.
Qed.

(** selecting with the mask of a predicate is filtering by it *)
Lemma select_map_self (p : A -> bool) (l : list A) :
  select (map p l) l = filter p l.
Proof.
  induction l as [| r l IH]; simpl; [reflexivity |].
  destruct (p r); now rewrite IH.
Qed.

Lemma lookup_map (f : Series A -> Series A) (name : string)
    (cols : list (string * Series A)) :
  lookup name (map (fun col => (fst col, f (snd col))) cols)
  = option_map f (lookup name cols).
Proof.
  induction cols as [| [n s] cols IH]; simpl; [reflexivity |].
  destruct (String.eqb n name); [reflexivity | exact IH].
Qed.

(** a predicate that implies the filter counts the same after filtering *)
Lemma filter_filter_length (p q : A -> bool) (l : list A) :
  (forall r, p r = true -> q r = true) ->
  length (filter p (filter q l)) = length (filter p l).
Proof.
  intros H. induction l as [| r l IH]; simpl; [reflexivity |].
  destruct (q r) eqn:Q; simpl.
  - destruct (p r); simpl; now rewrite IH.
  - destruct (p r) eqn:P; [| exact IH].
    rewrite (H r P) in Q. discriminate.
Qed.

End MaskFacts.

Lemma select_combine {A B : Type} (mask : Series bool) (l1 : list A) (l2 : list B) :
  select mask (combine l1 l2) = combine (select mask l1) (select mask l2).
Proof.
  revert l1 l2. induction mask as [| keep mask IH]; intros l1 l2; [reflexivity |].
  destruct l1 as [| x l1]; [reflexivity |].
  destruct l2 as [| y l2].
  - simpl. now destruct keep; destruct (select mask l1).
  - simpl. destruct keep; simpl; now rewrite IH.
Qed.

Section Cells.

Variable data1 : DataFrame nat pyval.
Hypothesis rectangular : well_formed data1.

Lemma column_length (name : string) (s : Series pyval) :
  getitem data1 name = Returned s -> length s = length (index data1).
Proof.
  unfold getitem. destruct (lookup name (data data1)) as [s' |] eqn:E; [| discriminate].
  intros [= ->]. destruct (lookup_In _ _ _ E) as [n Hin].
  exact (proj1 (Forall_forall _ _) rectangular (n, s) Hin).
Qed.

Lemma paired_length (ne nr : Series pyval) :
  getitem data1 "NativeEnt" = Returned ne ->
  getitem data1 "NonRefoldable" = Returned nr ->
  length (combine ne nr) = length (index data1).
Proof.
  intros E1 E2.
  rewrite length_combine, (column_length _ _ E1), (column_length _ _ E2).
  apply Nat.min_id.
Qed.

Lemma observations_columns (obs : list record) :
  observations data1 = Returned obs ->
  exists ne nr,
    getitem data1 "NativeEnt" = Returned ne /\
    getitem data1 "NonRefoldable" = Returned nr /\
    obs = combine ne nr /\ length obs = length (index data1).
Proof.
  unfold observations.
  destruct (getitem data1 "NativeEnt") as [ne | e] eqn:E1; [| discriminate].
  destruct (getitem data1 "NonRefoldable") as [nr | e] eqn:E2; [| discriminate].
  simpl. intros [= <-]. exists ne, nr. repeat split.
  unfold record. now apply paired_length.
Qed.

(** the length of the rows a mask selects is the number of records
    that satisfy both comparisons *)
Lemma masked_len (ne nr : Series pyval) (x y : bool) :
  getitem data1 "NativeEnt" = Returned ne ->
  getitem data1 "NonRefoldable" = Returned nr ->
  (rows <- getitem_mask data1 (series_and (series_eq ne x) (series_eq nr y)) ;;
   Returned (len rows))
  = Returned (count (in_cell x y) (combine ne nr)).
Proof.
  intros E1 E2. unfold series_eq. rewrite series_and_map.
  pose proof (paired_length ne nr E1 E2) as L.
  unfold getitem_mask. rewrite length_map, L, Nat.eqb_refl. simpl.
  unfold len, count. simpl. f_equal. f_equal.
  now apply select_map_length.
Qed.

Lemma cells_count (obs : list record) :
  observations data1 = Returned obs ->
  Notebook.a data1 = Returned (count (in_cell true true) obs) /\
  Notebook.b data1 = Returned (count (in_cell true false) obs) /\
  Notebook.c data1 = Returned (count (in_cell false true) obs) /\
  Notebook.d data1 = Returned (count (in_cell false false) obs).
Proof.
  intros H. destruct (observations_columns obs H) as (ne & nr & E1 & E2 & -> & _).
  unfold Notebook.a, Notebook.b, Notebook.c, Notebook.d.
  rewrite E1, E2. cbn [bind].
  repeat split; now apply masked_len.
Qed.

End Cells.

(** ** int64 arithmetic on counts *)

Section Int64Facts.

Lemma max_value_eq : Int64.max_value = 9223372036854775807.
Proof. reflexivity. Qed.

Lemma in_range_count (z : Z) :
  0 <= z <= Int64.max_value -> Int64.in_range z = true.
Proof.
  rewrite max_value_eq. intros H. unfold Int64.in_range.
  apply andb_true_intro. split; apply Z.leb_le.
  - unfold Int64.min_value. change (- 2 ^ 63) with (-9223372036854775808). lia.
  - rewrite max_value_eq. lia.
Qed.

Lemma wrap_small (z : Z) :
  0 <= z <= Int64.max_value -> Int64.wrap z = z.
Proof.
  rewrite max_value_eq. intros H. unfold Int64.wrap.
  change (2 ^ 63) with 9223372036854775808.
  change (2 ^ 64) with 18446744073709551616.
  rewrite Z.mod_small; lia.
Qed.

(** the sum of two counts wraps to zero only when both are zero *)
Lemma add_eqb_0 (x y : Z) :
  0 <= x <= Int64.max_value -> 0 <= y <= Int64.max_value ->
  (Int64.add x y =? 0) = (x + y =? 0).
Proof.
  rewrite max_value_eq. intros Hx Hy. unfold Int64.add, Int64.wrap.
  change (2 ^ 63) with 9223372036854775808.
  change (2 ^ 64) with 18446744073709551616.
  destruct (Z.eqb_spec (x + y) 0) as [E | E].
  - rewrite E. reflexivity.
  - apply Z.eqb_neq. intros H.
    assert (M : (x + y + 9223372036854775808) mod 18446744073709551616
                = 9223372036854775808) by lia.
    pose proof (Z.div_mod (x + y + 9223372036854775808) 18446744073709551616) as D.
    assert (Q : 0 <= (x + y + 9223372036854775808) / 18446744073709551616 < 2).
    { split; [apply Z.div_pos; lia | apply Z.div_lt_upper_bound; lia]. }
    lia.
Qed.

Lemma mul_small (x y : Z) :
  0 <= x -> 0 <= y -> x * y <= Int64.max_value -> Int64.mul x y = x * y.
Proof.
  intros Hx Hy H. unfold Int64.mul. apply wrap_small. nia.
Qed.

Lemma to_float_count (z : Z) :
  0 <= z -> Int64.to_float z = PrimFloat.of_uint63 (Uint63.of_Z z).
Proof.
  intros H. unfold Int64.to_float.
  destruct (Z.eqb_spec z Int64.min_value) as [E | _].
  - unfold Int64.min_value in E. change (- 2 ^ 63) with (-9223372036854775808) in E. lia.
  - destruct (Z.ltb_spec z 0); [lia | reflexivity].
Qed.

End Int64Facts.

(** ** The test on a table of counts *)

Section TableFacts.

Variables va vb vc vd : Z.
Hypothesis range_a : 0 <= va <= Int64.max_value.
Hypothesis range_b : 0 <= vb <= Int64.max_value.
Hypothesis range_c : 0 <= vc <= Int64.max_value.
Hypothesis range_d : 0 <= vd <= Int64.max_value.

(** the frame lays the counts out as [[a, b], [c, d]] *)
Lemma contingency_table_returns :
  Notebook.contingency_table va vb vc vd = Returned (table_of va vb vc vd).
Proof. reflexivity. Qed.

Lemma table_of_values : values (table_of va vb vc vd) = [[va; vb]; [vc; vd]].
Proof. reflexivity. Qed.

Lemma asarray_table_of :
  asarray_int64 (table_of va vb vc vd) = Returned [[va; vb]; [vc; vd]].
Proof.
  unfold asarray_int64. rewrite table_of_values. cbn [forallb].
  now rewrite !in_range_count.
Qed.

Lemma not_negative (z : Z) : 0 <= z -> (z <? 0) = false.
Proof. intros H. apply Z.ltb_ge. exact H. Qed.

(** with an empty row or column the test answers NaN and 1.0 *)
Lemma test_zero_margin :
  zero_margin va vb vc vd ->
  Notebook.test va vb vc vd = Returned (PrimFloat.nan, Literal 1%float).
Proof.
  intros M. unfold Notebook.test.
  rewrite contingency_table_returns. cbn [bind].
  unfold fisher_exact. rewrite asarray_table_of. cbn [bind].
  rewrite !not_negative by lia. cbn [orb].
  rewrite !add_eqb_0 by assumption.
  assert (E : (va + vc =? 0) || (vb + vd =? 0) || (va + vb =? 0) || (vc + vd =? 0) = true).
  { unfold zero_margin in M. rewrite !orb_true_iff, !Z.eqb_eq. tauto. }
  rewrite E. reflexivity.
Qed.

(** otherwise it answers an odds ratio and a hypergeometric p-value *)
Lemma test_regular :
  ~ zero_margin va vb vc vd ->
  Notebook.test va vb vc vd =
  Returned (if (vc >? 0) && (vb >? 0)
            then Int64.true_divide (Int64.mul va vd) (Int64.mul vc vb)
            else PrimFloat.infinity,
            Hypergeom "two-sided" va (Int64.add va vb) (Int64.add vc vd)
                      (Int64.add va vc)).
Proof.
  intros M. unfold Notebook.test.
  rewrite contingency_table_returns. cbn [bind].
  unfold fisher_exact. rewrite asarray_table_of. cbn [bind].
  rewrite !not_negative by lia. cbn [orb].
  rewrite !add_eqb_0 by assumption.
  assert (E : (va + vc =? 0) || (vb + vd =? 0) || (va + vb =? 0) || (vc + vd =? 0) = false).
  { unfold zero_margin in M. rewrite !orb_false_iff, !Z.eqb_neq. tauto. }
  rewrite E. reflexivity.
Qed.

End TableFacts.

(** ** One record against the four masks *)

Section RecordFacts.

Lemma in_cell_complete (x y : bool) (r : record) :
  in_cell x y r = true -> complete r = true.
Proof.
  unfold in_cell, complete. intros H.
  apply andb_true_iff in H. destruct H as [Hf Ho].
  destruct (isna (feature_present r)) eqn:Nf.
  - rewrite (isna_eq_bool _ x Nf) in Hf. discriminate.
  - destruct (isna (outcome_present r)) eqn:No; [| reflexivity].
    rewrite (isna_eq_bool _ y No) in Ho. discriminate.
Qed.

Lemma incomplete_in_no_cell (x y : bool) (r : record) :
  complete r = false -> in_cell x y r = false.
Proof.
  intros H. destruct (in_cell x y r) eqn:E; [| reflexivity].
  rewrite (in_cell_complete x y r E) in H. discriminate.
Qed.

(** the four masks are pairwise disjoint *)
Lemma in_cell_unique (x y x' y' : bool) (r : record) :
  in_cell x y r = true -> in_cell x' y' r = true -> x = x' /\ y = y'.
Proof.
  unfold in_cell. intros H H'.
  apply andb_true_iff in H. apply andb_true_iff in H'.
  destruct H as [Hf Ho], H' as [Hf' Ho'].
  split; eapply eq_bool_unique; eassumption.
Qed.

Lemma cells_containing_incomplete (r : record) :
  complete r = false -> cells_containing r = 0%nat.
Proof.
  intros H. unfold cells_containing.
  now rewrite !(incomplete_in_no_cell _ _ r H).
Qed.

(** on a record of booleans and gaps the mask tests the booleans themselves *)
Lemma in_cell_exact (x y : bool) (r : record) :
  boolean_or_missing (feature_present r) ->
  boolean_or_missing (outcome_present r) ->
  in_cell x y r = is_exactly x y r.
Proof.
  intros Hf Ho. unfold in_cell.
  rewrite (eq_bool_on_boolean_or_missing _ x Hf), (eq_bool_on_boolean_or_missing _ y Ho).
  destruct r as [f o]. simpl.
  destruct f, o; simpl; try reflexivity; apply andb_false_r.
Qed.

Lemma cells_containing_boolean (r : record) :
  both_boolean r = true -> cells_containing r = 1%nat.
Proof.
  destruct r as [[ | f | | | ] [ | o | | | ]]; try discriminate.
  intros _. destruct f, o; reflexivity.
Qed.

Lemma cells_containing_not_boolean (r : record) :
  boolean_or_missing (feature_present r) ->
  boolean_or_missing (outcome_present r) ->
  both_boolean r = false -> cells_containing r = 0%nat.
Proof.
  intros Hf Ho H. unfold cells_containing.
  rewrite !(in_cell_exact _ _ r Hf Ho).
  destruct r as [[ | f | | | ] [ | o | | | ]]; try reflexivity. discriminate.
Qed.

Lemma complete_boolean (r : record) :
  boolean_or_missing (feature_present r) ->
  boolean_or_missing (outcome_present r) ->
  complete r = both_boolean r.
Proof.
  intros Hf Ho. unfold complete, both_boolean.
  now rewrite (boolean_or_missing_complete _ Hf), (boolean_or_missing_complete _ Ho).
Qed.

(** a record is in at most one cell, and in none unless it is complete *)
Lemma cells_containing_le_complete (r : record) :
  (cells_containing r <= Nat.b2n (complete r))%nat.
Proof.
  destruct (complete r) eqn:C.
  - unfold cells_containing.
    destruct (in_cell true true r) eqn:TT, (in_cell true false r) eqn:TF,
             (in_cell false true r) eqn:FT, (in_cell false false r) eqn:FF;
      simpl; try lia; exfalso;
      match goal with
      | H1 : in_cell ?x ?y r = true, H2 : in_cell ?x' ?y' r = true |- _ =>
          destruct (in_cell_unique _ _ _ _ _ H1 H2); discriminate
      end.
  - rewrite (cells_containing_incomplete r C). simpl. lia.
Qed.

Lemma list_sum_map_le {A : Type} (f g : A -> nat) (l : list A) :
  (forall r, In r l -> (f r <= g r)%nat) ->
  (list_sum (map f l) <= list_sum (map g l))%nat.
Proof.
  induction l as [| r l IH]; simpl; intros H; [lia |].
  pose proof (H r (or_introl eq_refl)).
  assert (list_sum (map f l) <= list_sum (map g l))%nat by (apply IH; auto).
  lia.
Qed.

(** the four counts add up to the number of cell memberships *)
Lemma counts_sum (obs : list record) :
  count (in_cell true true) obs + count (in_cell true false) obs
  + count (in_cell false true) obs + count (in_cell false false) obs
  = Z.of_nat (list_sum (map cells_containing obs)).
Proof.
  unfold count, cells_containing.
  rewrite !filter_length_b2n, !list_sum_map_add. lia.
Qed.

Lemma count_nonneg (p : record -> bool) (obs : list record) : 0 <= count p obs.
Proof. unfold count. lia. Qed.

Lemma count_le_length (p : record -> bool) (obs : list record) :
  count p obs <= Z.of_nat (length obs).
Proof. unfold count. pose proof (filter_length_le p obs). lia. Qed.

Lemma count_ext (p q : record -> bool) (obs : list record) :
  (forall r, In r obs -> p r = q r) -> count p obs = count q obs.
Proof. intros H. unfold count. now rewrite (filter_length_ext p q obs H). Qed.

End RecordFacts.

(** ** The whole of Step 3 *)

Section Step3.

Variable data1 : DataFrame nat pyval.
Variable obs : list record.
Hypothesis rectangular : well_formed data1.
Hypothesis columns : observations data1 = Returned obs.

(** Step 3 is the test on the four counts, packed with them *)
Lemma step3_of_counts :
  Notebook.step3 data1 =
  (r <- Notebook.test (count (in_cell true true) obs) (count (in_cell true false) obs)
                      (count (in_cell false true) obs) (count (in_cell false false) obs) ;;
   Returned (mkAnalysis
               (count (in_cell true true) obs) (count (in_cell true false) obs)
               (count (in_cell false true) obs) (count (in_cell false false) obs)
               (table_of (count (in_cell true true) obs) (count (in_cell true false) obs)
                         (count (in_cell false true) obs) (count (in_cell false false) obs))
               (fst r) (snd r))).
Proof.
  destruct (cells_count data1 rectangular obs columns) as (Ha & Hb & Hc & Hd).
  unfold Notebook.step3, Notebook.test.
  rewrite Ha, Hb, Hc, Hd. cbn [bind].
  rewrite contingency_table_returns. reflexivity.
Qed.

Lemma count_in_range (p : record -> bool) :
  len data1 <= Int64.max_value -> 0 <= count p obs <= Int64.max_value.
Proof.
  intros H. destruct (observations_columns data1 rectangular obs columns)
    as (ne & nr & _ & _ & _ & L).
  pose proof (count_nonneg p obs). pose proof (count_le_length p obs).
  unfold len in H. lia.
Qed.

(** leaving the incomplete records out changes no count *)
Lemma count_of_complete (x y : bool) :
  count (in_cell x y) (filter complete obs) = count (in_cell x y) obs.
Proof.
  unfold count. f_equal. apply filter_filter_length. apply in_cell_complete.
Qed.

Lemma dropna_returns :
  dropna data1 =
  Returned (mkDataFrame (select (map complete obs) (index data1))
              (map (fun col => (fst col, select (map complete obs) (snd col)))
                   (data data1))).
Proof.
  destruct (observations_columns data1 rectangular obs columns)
    as (ne & nr & _ & _ & _ & L).
  unfold dropna. rewrite columns. cbn [bind].
  unfold getitem_mask. now rewrite length_map, L, Nat.eqb_refl.
Qed.

Lemma dropna_well_formed (kept : DataFrame nat pyval) :
  dropna data1 = Returned kept -> well_formed kept.
Proof.
  destruct (observations_columns data1 rectangular obs columns)
    as (ne & nr & _ & _ & _ & L).
  rewrite dropna_returns. intros [= <-]. unfold well_formed. cbn [index data].
  apply Forall_forall. intros col Hin.
  apply in_map_iff in Hin. destruct Hin as (col0 & <- & Hin0). cbn [snd].
  pose proof (proj1 (Forall_forall _ _) rectangular col0 Hin0) as Lc. cbn beta in Lc.
  rewrite !select_map_length; [reflexivity | now rewrite L | now rewrite Lc, L].
Qed.

Lemma dropna_observations (kept : DataFrame nat pyval) :
  dropna data1 = Returned kept ->
  observations kept = Returned (filter complete obs).
Proof.
  destruct (observations_columns data1 rectangular obs columns)
    as (ne & nr & E1 & E2 & Eobs & _).
  rewrite dropna_returns. intros [= <-].
  unfold getitem in E1, E2.
  destruct (lookup "NativeEnt" (data data1)) as [ne' |] eqn:L1; [| discriminate].
  destruct (lookup "NonRefoldable" (data data1)) as [nr' |] eqn:L2; [| discriminate].
  injection E1 as ->. injection E2 as ->.
  unfold observations, getitem. cbn [data].
  rewrite !lookup_map, L1, L2. cbn [option_map bind].
  now rewrite <- select_combine, <- Eobs, select_map_self.
Qed.

End Step3.

(** the analysis cannot tell a frame from the same frame without its
    incomplete records *)
Lemma step3_dropna (data1 kept : DataFrame nat pyval) (obs : list record) :
  well_formed data1 ->
  observations data1 = Returned obs ->
  dropna data1 = Returned kept ->
  Notebook.step3 kept = Notebook.step3 data1.
Proof.
  intros W O D.
  rewrite (step3_of_counts data1 obs W O).
  rewrite (step3_of_counts kept (filter complete obs)
             (dropna_well_formed data1 obs W O kept D)
             (dropna_observations data1 obs W O kept D)).
  now rewrite !count_of_complete.
Qed.

(** ** Sample frames are rectangular observation sets *)

Lemma six_proteins_well_formed : well_formed six_proteins.
Proof. repeat constructor. Defined.

Lemma six_proteins_observations : observations six_proteins = Returned six_records.
Proof. reflexivity. Defined.

Lemma six_records_observation_set : observation_set six_records.
Proof.
  repeat constructor;
    solve [left; reflexivity | right; reflexivity].
Defined.

Lemma only_gaps_well_formed : well_formed only_gaps.
Proof. repeat constructor. Defined.

Lemma only_gaps_observations : observations only_gaps = Returned gap_records.
Proof. reflexivity. Defined.

Lemma none_entangled_well_formed : well_formed none_entangled.
Proof. repeat constructor. Defined.

Lemma none_entangled_observations :
  observations none_entangled = Returned none_entangled_records.
Proof. reflexivity. Defined.

Lemma small_count_in_range (z : Z) :
  (0 <=? z) && (z <=? 1000000) = true -> 0 <= z <= Int64.max_value.
Proof.
  intros H. apply andb_true_iff in H. destruct H as [L U].
  apply Z.leb_le in L. apply Z.leb_le in U. rewrite max_value_eq. lia.
Defined.

Lemma small_positive_count_in_range (z : Z) :
  (0 <? z) && (z <=? 1000000) = true -> 0 < z <= Int64.max_value.
Proof.
  intros H. apply andb_true_iff in H. destruct H as [L U].
  apply Z.ltb_lt in L. apply Z.leb_le in U. rewrite max_value_eq. lia.
Defined.

(** * The claims *)

(** ** The four cells *)

(** C3: the builder splits the records by equality of the two attributes
    with the booleans: each count is the number of records at which its
    pair of comparisons holds, and on every observation set [a] is the
    number of records with feature and outcome both [True], [b] of those
    with feature [True] and outcome [False], [c] of those with feature
    [False] and outcome [True], and [d] of those with both [False]. *)
Theorem cells_split_by_boolean_equality
    (data1 : DataFrame nat pyval) (obs : list record) :
  well_formed data1 ->
  observations data1 = Returned obs ->
  (Notebook.a data1 = Returned (count (in_cell true true) obs) /\
   Notebook.b data1 = Returned (count (in_cell true false) obs) /\
   Notebook.c data1 = Returned (count (in_cell false true) obs) /\
   Notebook.d data1 = Returned (count (in_cell false false) obs)) /\
  (observation_set obs ->
   Notebook.a data1 = Returned (count (is_exactly true true) obs) /\
   Notebook.b data1 = Returned (count (is_exactly true false) obs) /\
   Notebook.c data1 = Returned (count (is_exactly false true) obs) /\
   Notebook.d data1 = Returned (count (is_exactly false false) obs)).
Proof.
  intros W O.
  pose proof (cells_count data1 W obs O) as Cells.
  split; [exact Cells | intros S].
  assert (E : forall x y, count (in_cell x y) obs = count (is_exactly x y) obs).
  { intros x y. apply count_ext. intros r Hr.
    destruct (proj1 (Forall_forall _ _) S r Hr) as [Hf Ho].
    now apply in_cell_exact. }
  rewrite <- !E. exact Cells.
Qed.

Lemma cells_split_by_boolean_equality_witness :
  Notebook.a six_proteins = Returned 1 /\
  Notebook.b six_proteins = Returned 1 /\
  Notebook.c six_proteins = Returned 1 /\
  Notebook.d six_proteins = Returned 1.
Proof.
  exact (proj2 (cells_split_by_boolean_equality six_proteins six_records
                  six_proteins_well_formed six_proteins_observations)
               six_records_observation_set).
Defined.

(** C4: the four counts are non-negative integers; they never add up to
    more than the number of complete records, and on every observation
    set they add up to exactly that number, the records with a missing
    value being left out. *)
Theorem cells_sum_to_complete_records
    (data1 : DataFrame nat pyval) (obs : list record) :
  well_formed data1 ->
  observations data1 = Returned obs ->
  exists va vb vc vd : Z,
    Notebook.a data1 = Returned va /\ Notebook.b data1 = Returned vb /\
    Notebook.c data1 = Returned vc /\ Notebook.d data1 = Returned vd /\
    0 <= va /\ 0 <= vb /\ 0 <= vc /\ 0 <= vd /\
    va + vb + vc + vd <= count complete obs /\
    (observation_set obs -> va + vb + vc + vd = count complete obs).
Proof.
  intros W O.
  destruct (cells_count data1 W obs O) as (Ha & Hb & Hc & Hd).
  exists (count (in_cell true true) obs), (count (in_cell true false) obs),
         (count (in_cell false true) obs), (count (in_cell false false) obs).
  repeat (split; [first [assumption | apply count_nonneg] |]).
  rewrite counts_sum. unfold count. rewrite filter_length_b2n.
  split.
  - apply inj_le. apply list_sum_map_le. intros r _.
    apply cells_containing_le_complete.
  - intros S. f_equal. apply list_sum_map_ext. intros r Hr.
    destruct (proj1 (Forall_forall _ _) S r Hr) as [Hf Ho].
    rewrite (complete_boolean r Hf Ho).
    destruct (both_boolean r) eqn:B.
    + now apply cells_containing_boolean.
    + now apply cells_containing_not_boolean.
Qed.

Lemma cells_sum_to_complete_records_witness :
  count complete six_records = 4 /\
  exists va vb vc vd : Z,
    Notebook.a six_proteins = Returned va /\ Notebook.b six_proteins = Returned vb /\
    Notebook.c six_proteins = Returned vc /\ Notebook.d six_proteins = Returned vd /\
    0 <= va /\ 0 <= vb /\ 0 <= vc /\ 0 <= vd /\
    va + vb + vc + vd = 4.
Proof.
  split; [reflexivity |].
  destruct (cells_sum_to_complete_records six_proteins six_records
              six_proteins_well_formed six_proteins_observations)
    as (va & vb & vc & vd & Ha & Hb & Hc & Hd & Pa & Pb & Pc & Pd & _ & Sum).
  exists va, vb, vc, vd.
  repeat (split; [assumption |]).
  exact (Sum six_records_observation_set).
Defined.

(** C10: the four masks are pairwise disjoint, and on every observation
    set they cover exactly the records with booleans in both attributes:
    such a record is counted in exactly one of [a], [b], [c], [d], a
    record with a missing value (NaN, [None]) in either attribute is
    counted in none, and so is, on an observation set, every record with
    a value that is not a boolean.  The counts are the numbers of records
    at which the masks hold. *)
Theorem each_record_in_one_cell_or_none
    (data1 : DataFrame nat pyval) (obs : list record) :
  well_formed data1 ->
  observations data1 = Returned obs ->
  (Notebook.a data1 = Returned (count (in_cell true true) obs) /\
   Notebook.b data1 = Returned (count (in_cell true false) obs) /\
   Notebook.c data1 = Returned (count (in_cell false true) obs) /\
   Notebook.d data1 = Returned (count (in_cell false false) obs)) /\
  (forall r x y x' y', In r obs ->
     in_cell x y r = true -> in_cell x' y' r = true -> x = x' /\ y = y') /\
  (forall r, In r obs -> both_boolean r = true -> cells_containing r = 1%nat) /\
  (forall r, In r obs -> complete r = false -> cells_containing r = 0%nat) /\
  (observation_set obs ->
   forall r, In r obs -> both_boolean r = false -> cells_containing r = 0%nat).
Proof.
  intros W O. split; [now apply cells_count |]. split; [| split; [| split]].
  - intros r x y x' y' _. apply in_cell_unique.
  - intros r _. apply cells_containing_boolean.
  - intros r _. apply cells_containing_incomplete.
  - intros S r Hr.
    destruct (proj1 (Forall_forall _ _) S r Hr) as [Hf Ho].
    now apply cells_containing_not_boolean.
Qed.

Lemma each_record_in_one_cell_or_none_witness :
  cells_containing (PyBool true, PyBool false) = 1%nat /\
  cells_containing (PyFloat PrimFloat.nan, PyBool true) = 0%nat /\
  cells_containing (PyBool true, PyNone) = 0%nat.
Proof.
  destruct (each_record_in_one_cell_or_none six_proteins six_records
              six_proteins_well_formed six_proteins_observations)
    as (_ & _ & One & _ & None).
  split; [| split].
  - apply One; [simpl; tauto | reflexivity].
  - apply (None six_records_observation_set); [simpl; tauto | reflexivity].
  - apply (None six_records_observation_set); [simpl; tauto | reflexivity].
Defined.

(** ** Missing values *)

(** C9, as the code has it: a record with a missing value in the feature
    or in the outcome is counted in none of the four cells (it is not
    read as [False]); the four counts are those of the complete records
    alone; and Step 3 gives the same results, field by field, as on the
    frame without the incomplete records, so their number is nowhere in
    what it reports. *)
Theorem missing_values_are_left_out
    (data1 : DataFrame nat pyval) (obs : list record) :
  well_formed data1 ->
  observations data1 = Returned obs ->
  (forall r, In r obs -> complete r = false -> cells_containing r = 0%nat) /\
  (Notebook.a data1 = Returned (count (in_cell true true) (filter complete obs)) /\
   Notebook.b data1 = Returned (count (in_cell true false) (filter complete obs)) /\
   Notebook.c data1 = Returned (count (in_cell false true) (filter complete obs)) /\
   Notebook.d data1 = Returned (count (in_cell false false) (filter complete obs))) /\
  (exists kept, dropna data1 = Returned kept
                /\ Notebook.step3 kept = Notebook.step3 data1).
Proof.
  intros W O. split; [| split].
  - intros r _. apply cells_containing_incomplete.
  - rewrite !count_of_complete. now apply cells_count.
  - eexists. split; [exact (dropna_returns data1 obs W O) |].
    exact (step3_dropna data1 _ obs W O (dropna_returns data1 obs W O)).
Qed.

Lemma missing_values_are_left_out_witness :
  cells_containing (PyFloat PrimFloat.nan, PyBool true) = 0%nat /\
  Notebook.c six_proteins = Returned 1 /\
  exists kept, dropna six_proteins = Returned kept
               /\ Notebook.step3 kept = Notebook.step3 six_proteins.
Proof.
  destruct (missing_values_are_left_out six_proteins six_records
              six_proteins_well_formed six_proteins_observations)
    as (None & (_ & _ & Hc & _) & Same).
  split; [| split].
  - apply None; [simpl; tauto | reflexivity].
  - exact Hc.
  - exact Same.
Defined.

(** C9, as the claim has it, fails: nothing that is computed from the
    results of Step 3 is the number of dropped records, since a frame and
    the same frame with one more incomplete record give equal results. *)
Lemma dropped_record_count_is_not_reported :
  ~ exists report : py Analysis -> Z,
      forall data1 obs,
        observations data1 = Returned obs ->
        report (Notebook.step3 data1) = dropped_record_count obs.
Proof.
  intros [report H].
  pose proof (H one_protein _ eq_refl) as H0.
  pose proof (H one_protein_and_a_gap _ eq_refl) as H1.
  change (Notebook.step3 one_protein_and_a_gap)
    with (Notebook.step3 one_protein) in H1.
  rewrite H0 in H1. vm_compute in H1. discriminate.
Qed.

(** ** Degenerate tables *)

(** C7, as the code has it: when no record is left after the incomplete
    ones are set aside, Step 3 does not fail; the four counts are zero,
    the odds ratio is NaN and the p-value is 1.0. *)
Theorem empty_observation_set_gives_zero_table
    (data1 : DataFrame nat pyval) (obs : list record) :
  well_formed data1 ->
  observations data1 = Returned obs ->
  filter complete obs = [] ->
  Notebook.step3 data1 =
  Returned (mkAnalysis 0 0 0 0 (table_of 0 0 0 0) PrimFloat.nan (Literal 1%float)).
Proof.
  intros W O E.
  rewrite (step3_of_counts data1 obs W O).
  rewrite <- !(count_of_complete obs), E.
  reflexivity.
Qed.

Lemma empty_observation_set_gives_zero_table_witness :
  filter complete gap_records = [] /\
  Notebook.step3 only_gaps =
  Returned (mkAnalysis 0 0 0 0 (table_of 0 0 0 0) PrimFloat.nan (Literal 1%float)).
Proof.
  split; [reflexivity |].
  exact (empty_observation_set_gives_zero_table only_gaps gap_records
           only_gaps_well_formed only_gaps_observations eq_refl).
Defined.

(** C7, as the claim has it, fails: on a frame without rows Step 3
    returns, and raises nothing. *)
Lemma empty_frame_is_not_refused :
  Notebook.step3 no_rows =
  Returned (mkAnalysis 0 0 0 0 (table_of 0 0 0 0) PrimFloat.nan (Literal 1%float))
  /\ forall e, Notebook.step3 no_rows <> Raised e.
Proof.
  split; [reflexivity | intros e; discriminate].
Qed.

(** C5, as the code has it: when a row or a column of the table is empty
    the analysis does not fail; the test returns NaN for the odds ratio
    and 1.0 for the p-value, next to the four counts and their table. *)
Theorem zero_margin_gives_nan
    (data1 : DataFrame nat pyval) (obs : list record) :
  well_formed data1 ->
  observations data1 = Returned obs ->
  len data1 <= Int64.max_value ->
  zero_margin (count (in_cell true true) obs) (count (in_cell true false) obs)
              (count (in_cell false true) obs) (count (in_cell false false) obs) ->
  Notebook.step3 data1 =
  Returned (mkAnalysis
              (count (in_cell true true) obs) (count (in_cell true false) obs)
              (count (in_cell false true) obs) (count (in_cell false false) obs)
              (table_of (count (in_cell true true) obs) (count (in_cell true false) obs)
                        (count (in_cell false true) obs) (count (in_cell false false) obs))
              PrimFloat.nan (Literal 1%float)).
Proof.
  intros W O L M.
  rewrite (step3_of_counts data1 obs W O).
  rewrite test_zero_margin; try (now apply (count_in_range data1 obs W O)); [| exact M].
  reflexivity.
Qed.

Lemma zero_margin_gives_nan_witness :
  Notebook.step3 none_entangled =
  Returned (mkAnalysis 0 0 2 1 (table_of 0 0 2 1) PrimFloat.nan (Literal 1%float)).
Proof.
  refine (zero_margin_gives_nan none_entangled none_entangled_records
            none_entangled_well_formed none_entangled_observations _ _).
  - apply Z.leb_le. reflexivity.
  - left. reflexivity.
Defined.

(** C5, as the claim has it, fails: with no entangled protein among three
    ([a = 0], [b = 0]) Step 3 returns its results and raises nothing. *)
Lemma zero_margin_raises_nothing :
  (exists r, Notebook.step3 none_entangled = Returned r
             /\ cell_a r = 0 /\ cell_b r = 0 /\ cell_c r = 2 /\ cell_d r = 1
             /\ odds_ratio r = PrimFloat.nan /\ fisher_p_value r = Literal 1%float)
  /\ forall e, Notebook.step3 none_entangled <> Raised e.
Proof.
  split; [| intros e; discriminate].
  eexists. split; [reflexivity |]. repeat split.
Qed.

(** ** The odds ratio *)

(** C2, as the code has it: for every table of counts with [b > 0] and
    [c > 0] whose cross products [a*d] and [b*c] fit a signed 64-bit
    integer, the odds ratio the test returns is the double-precision
    quotient of [a*d] by [b*c]; for the table 30, 18, 16, 65 (see the
    witness) it is 1950/288. *)
Theorem odds_ratio_is_cross_product_ratio (va vb vc vd : Z) :
  0 <= va <= Int64.max_value ->
  0 < vb <= Int64.max_value ->
  0 < vc <= Int64.max_value ->
  0 <= vd <= Int64.max_value ->
  va * vd <= Int64.max_value ->
  vb * vc <= Int64.max_value ->
  exists p,
    Notebook.test va vb vc vd =
    Returned (PrimFloat.div (PrimFloat.of_uint63 (Uint63.of_Z (va * vd)))
                            (PrimFloat.of_uint63 (Uint63.of_Z (vb * vc))), p).
Proof.
  intros Ra Rb Rc Rd Pad Pbc.
  rewrite test_regular by (try assumption; try lia; unfold zero_margin; lia).
  assert (T : (vc >? 0) && (vb >? 0) = true).
  { apply andb_true_intro. split; apply Z.gtb_lt; lia. }
  rewrite T. unfold Int64.true_divide.
  rewrite !mul_small by lia.
  rewrite (Z.mul_comm vc vb).
  rewrite !to_float_count by nia.
  eexists. reflexivity.
Qed.

Lemma odds_ratio_is_cross_product_ratio_witness :
  exists p, Notebook.test 30 18 16 65 = Returned ((1950 / 288)%float, p).
Proof.
  exact (odds_ratio_is_cross_product_ratio 30 18 16 65
           (small_count_in_range 30 eq_refl)
           (small_positive_count_in_range 18 eq_refl)
           (small_positive_count_in_range 16 eq_refl)
           (small_count_in_range 65 eq_refl)
           (proj2 (small_count_in_range (30 * 65) eq_refl))
           (proj2 (small_count_in_range (18 * 16) eq_refl))).
Defined.

(** C2, as the claim has it, fails on counts whose cross product passes
    2^63: for [a = d = 3037000500] and [b = c = 1] the quotient
    [(a*d)/(b*c)] is positive, and the test returns a negative number. *)
Lemma odds_ratio_wraps_on_large_counts :
  exists r,
    statistic (Notebook.test 3037000500 1 1 3037000500) = Some r
    /\ PrimFloat.ltb r 0%float = true
    /\ 0 < (3037000500 * 3037000500) / (1 * 1).
Proof.
  eexists. split; [vm_compute; reflexivity |]. split; [vm_compute; reflexivity |].
  reflexivity.
Qed.

(** C6: for every table of counts with [b = 0] or [c = 0] and [a > 0],
    [d > 0], the test returns, raises nothing, and its odds ratio is
    positive infinity: not NaN, and equal to no finite double. *)
Theorem zero_denominator_gives_infinity (va vb vc vd : Z) :
  0 < va <= Int64.max_value ->
  0 <= vb <= Int64.max_value ->
  0 <= vc <= Int64.max_value ->
  0 < vd <= Int64.max_value ->
  vb = 0 \/ vc = 0 ->
  exists r p,
    Notebook.test va vb vc vd = Returned (r, p)
    /\ r = PrimFloat.infinity
    /\ is_infinity r = true
    /\ is_nan r = false
    /\ forall f, is_finite f = true -> PrimFloat.eqb f r = false.
Proof.
  intros Ra Rb Rc Rd Z0.
  rewrite test_regular by (try assumption; try lia; unfold zero_margin; lia).
  assert (T : (vc >? 0) && (vb >? 0) = false).
  { apply andb_false_iff. destruct Z0 as [-> | ->]; [right | left]; reflexivity. }
  rewrite T.
  eexists. eexists. split; [reflexivity |].
  split; [reflexivity |]. split; [reflexivity |]. split; [reflexivity |].
  exact finite_eqb_infinity.
Qed.

Lemma zero_denominator_gives_infinity_witness :
  exists r p,
    Notebook.test 10 0 5 10 = Returned (r, p)
    /\ r = PrimFloat.infinity
    /\ is_infinity r = true
    /\ is_nan r = false
    /\ forall f, is_finite f = true -> PrimFloat.eqb f r = false.
Proof.
  exact (zero_denominator_gives_infinity 10 0 5 10
           (small_positive_count_in_range 10 eq_refl)
           (small_count_in_range 0 eq_refl)
           (small_count_in_range 5 eq_refl)
           (small_positive_count_in_range 10 eq_refl)
           (or_introl eq_refl)).
Defined.

(** * Further properties of the notebook's code *)

(** ** Selecting rows with a mask *)

Section Selection.

Context {I A : Type}.

Lemma select_length (mask : Series bool) (xs : list A) :
  length mask = length xs ->
  length (select mask xs) = count_occ bool_dec mask true.
Proof.
  revert xs. induction mask as [| keep mask IH]; intros [| x xs] H;
    try reflexivity; try discriminate.
  injection H as H. simpl. destruct keep; simpl.
  - now rewrite IH.
  - destruct (bool_dec false true); [discriminate | now apply IH].
Qed.

Lemma select_all (n : nat) (xs : list A) :
  length xs = n -> select (repeat true n) xs = xs.
Proof.
  revert xs. induction n as [| n IH]; intros [| x xs] H;
    try reflexivity; try discriminate.
  injection H as H. simpl. now rewrite IH.
Qed.

Lemma count_occ_le_length (mask : Series bool) :
  (count_occ bool_dec mask true <= length mask)%nat.
Proof.
  induction mask as [| keep mask IH]; simpl; [lia |].
  destruct (bool_dec keep true); lia.
Qed.

End Selection.

(** [df[mask]] refuses a mask of another length than the frame; with a
    mask of the right length it returns a rectangular frame with the same
    columns and one row for each [True] of the mask, and the frame itself
    when the whole mask is [True]. *)
Theorem getitem_mask_keeps_the_true_rows
    {I A : Type} (df : DataFrame I A) (mask : Series bool) :
  well_formed df ->
  (length mask <> length (index df) ->
   getitem_mask df mask = Raised (ValueError "Item wrong length")) /\
  (length mask = length (index df) ->
   exists rows,
     getitem_mask df mask = Returned rows
     /\ well_formed rows
     /\ columns rows = columns df
     /\ len rows = Z.of_nat (count_occ bool_dec mask true)
     /\ len rows <= len df
     /\ (mask = repeat true (length (index df)) -> rows = df)).
Proof.
  intros W. unfold getitem_mask. split; intros L.
  - apply Nat.eqb_neq in L. now rewrite L.
  - rewrite L, Nat.eqb_refl. eexists. split; [reflexivity |].
    assert (Li : length (select mask (index df)) = count_occ bool_dec mask true)
      by now apply select_length.
    split; [| split; [| split; [| split]]].
    + unfold well_formed. cbn [index data].
      apply Forall_forall. intros col Hin.
      apply in_map_iff in Hin. destruct Hin as (col0 & <- & Hin0). cbn [snd].
      pose proof (proj1 (Forall_forall _ _) W col0 Hin0) as Lc. cbn beta in Lc.
      rewrite Li. apply select_length. now rewrite Lc.
    + unfold columns. cbn [data]. rewrite map_map. reflexivity.
    + unfold len. cbn [index]. now rewrite Li.
    + unfold len. cbn [index]. rewrite Li, <- L.
      apply inj_le, count_occ_le_length.
    + intros ->. destruct df as [idx cols]. cbn [index data] in *.
      f_equal; [now apply select_all |].
      rewrite <- (map_id cols) at 2. apply map_ext_in. intros [name s] Hin.
      cbn [fst snd]. f_equal. apply select_all.
      exact (proj1 (Forall_forall _ _) W (name, s) Hin).
Qed.

Lemma getitem_mask_keeps_the_true_rows_witness :
  exists rows,
    getitem_mask six_proteins [true; false; false; true; false; true] = Returned rows
    /\ well_formed rows
    /\ columns rows = columns six_proteins
    /\ len rows = 3
    /\ len rows <= 6.
Proof.
  destruct (proj2 (getitem_mask_keeps_the_true_rows six_proteins
                     [true; false; false; true; false; true]
                     six_proteins_well_formed) eq_refl)
    as (rows & E & W & C & L & B & _).
  exists rows. repeat split; assumption.
Defined.

(** ** The rows behind a count *)

Section RowsOfCell.

Variable data1 : DataFrame nat pyval.
Variable obs : list record.
Hypothesis rectangular : well_formed data1.
Hypothesis both_columns : observations data1 = Returned obs.

Lemma rows_of_cell_returns (x y : bool) :
  rows_of_cell data1 x y =
  Returned (mkDataFrame (select (map (in_cell x y) obs) (index data1))
              (map (fun col => (fst col, select (map (in_cell x y) obs) (snd col)))
                   (data data1))).
Proof.
  destruct (observations_columns data1 rectangular obs both_columns)
    as (ne & nr & E1 & E2 & Eobs & L).
  unfold rows_of_cell. rewrite E1, E2. cbn [bind].
  unfold series_eq. rewrite series_and_map.
  change (map (fun r : pyval * pyval => eq_bool (fst r) x && eq_bool (snd r) y)
              (combine ne nr))
    with (map (in_cell x y) (combine ne nr)).
  rewrite <- Eobs. unfold getitem_mask.
  now rewrite length_map, L, Nat.eqb_refl.
Qed.

Lemma rows_of_cell_observations (x y : bool) (rows : DataFrame nat pyval) :
  rows_of_cell data1 x y = Returned rows ->
  observations rows = Returned (filter (in_cell x y) obs).
Proof.
  destruct (observations_columns data1 rectangular obs both_columns)
    as (ne & nr & E1 & E2 & Eobs & _).
  rewrite rows_of_cell_returns. intros [= <-].
  unfold getitem in E1, E2.
  destruct (lookup "NativeEnt" (data data1)) as [ne' |] eqn:L1; [| discriminate].
  destruct (lookup "NonRefoldable" (data data1)) as [nr' |] eqn:L2; [| discriminate].
  injection E1 as ->. injection E2 as ->.
  unfold observations, getitem. cbn [data].
  rewrite !lookup_map, L1, L2. cbn [option_map bind].
  now rewrite <- select_combine, <- Eobs, select_map_self.
Qed.

Lemma rows_of_cell_well_formed (x y : bool) (rows : DataFrame nat pyval) :
  rows_of_cell data1 x y = Returned rows -> well_formed rows.
Proof.
  destruct (observations_columns data1 rectangular obs both_columns)
    as (ne & nr & _ & _ & _ & L).
  rewrite rows_of_cell_returns. intros E.
  assert (Lm : length (map (in_cell x y) obs) = length (index data1))
    by now rewrite length_map.
  destruct (proj2 (getitem_mask_keeps_the_true_rows data1 _ rectangular) Lm)
    as (rows' & E' & W' & _).
  unfold getitem_mask in E'. rewrite Lm, Nat.eqb_refl in E'.
  rewrite E' in E. now injection E as <-.
Qed.

End RowsOfCell.

Lemma filter_idempotent_length {A : Type} (p : A -> bool) (l : list A) :
  length (filter p (filter p l)) = length (filter p l).
Proof. apply filter_filter_length. auto. Qed.

Lemma filter_disjoint_length {A : Type} (p q : A -> bool) (l : list A) :
  (forall r, q r = true -> p r = false) ->
  length (filter p (filter q l)) = 0%nat.
Proof.
  intros H. induction l as [| r l IH]; simpl; [reflexivity |].
  destruct (q r) eqn:Q; [| exact IH].
  simpl. now rewrite (H r Q).
Qed.

Lemma count_within_cell (x y x' y' : bool) (obs : list record) :
  count (in_cell x' y') (filter (in_cell x y) obs)
  = if Bool.eqb x' x && Bool.eqb y' y then count (in_cell x y) obs else 0.
Proof.
  unfold count.
  destruct (Bool.eqb x' x && Bool.eqb y' y) eqn:E.
  - apply andb_true_iff in E. destruct E as [Ex Ey].
    apply eqb_prop in Ex. apply eqb_prop in Ey. subst x' y'.
    now rewrite filter_idempotent_length.
  - rewrite filter_disjoint_length; [reflexivity |].
    intros r Q. destruct (in_cell x' y' r) eqn:P; [| reflexivity].
    destruct (in_cell_unique _ _ _ _ r P Q) as [-> ->].
    now rewrite !eqb_reflx in E.
Qed.

(** The rows a counting line selects are the records at which both of
    its comparisons hold, all of them and in their order in [data1]; the
    selection is rectangular, has the columns of [data1], and its length
    is the count. *)
Theorem rows_of_cell_are_the_matching_records
    (data1 : DataFrame nat pyval) (obs : list record) (x y : bool) :
  well_formed data1 ->
  observations data1 = Returned obs ->
  exists rows,
    rows_of_cell data1 x y = Returned rows
    /\ well_formed rows
    /\ columns rows = columns data1
    /\ observations rows = Returned (filter (in_cell x y) obs)
    /\ len rows = count (in_cell x y) obs.
Proof.
  intros W O.
  pose proof (rows_of_cell_returns data1 obs W O x y) as E.
  eexists. split; [exact E |].
  pose proof (rows_of_cell_well_formed data1 obs W O x y _ E) as W'.
  pose proof (rows_of_cell_observations data1 obs W O x y _ E) as O'.
  split; [exact W' |]. split; [| split; [exact O' |]].
  - unfold columns. cbn [data]. rewrite map_map. reflexivity.
  - destruct (observations_columns _ W' _ O') as (_ & _ & _ & _ & _ & L).
    unfold len, count. now rewrite <- L.
Qed.

Lemma rows_of_cell_are_the_matching_records_witness :
  exists rows,
    rows_of_cell six_proteins true false = Returned rows
    /\ well_formed rows
    /\ columns rows = columns six_proteins
    /\ observations rows = Returned [(PyBool true, PyBool false)]
    /\ len rows = 1.
Proof.
  exact (rows_of_cell_are_the_matching_records six_proteins six_records true false
           six_proteins_well_formed six_proteins_observations).
Defined.

(** Counting again inside the rows selected for one cell: every row falls
    in that cell and none in the three others. *)
Theorem selected_rows_fall_in_their_cell
    (data1 rows : DataFrame nat pyval) (obs : list record) (x y : bool) :
  well_formed data1 ->
  observations data1 = Returned obs ->
  rows_of_cell data1 x y = Returned rows ->
  Notebook.a rows = Returned (if x && y then len rows else 0) /\
  Notebook.b rows = Returned (if x && negb y then len rows else 0) /\
  Notebook.c rows = Returned (if negb x && y then len rows else 0) /\
  Notebook.d rows = Returned (if negb x && negb y then len rows else 0).
Proof.
  intros W O E.
  destruct (rows_of_cell_are_the_matching_records data1 obs x y W O)
    as (rows' & E' & W' & _ & O' & L).
  rewrite E in E'. injection E' as <-.
  destruct (cells_count rows W' _ O') as (Ha & Hb & Hc & Hd).
  rewrite Ha, Hb, Hc, Hd, !count_within_cell, L.
  destruct x, y; repeat split; reflexivity.
Qed.

Lemma selected_rows_fall_in_their_cell_witness :
  exists rows,
    rows_of_cell six_proteins false true = Returned rows
    /\ Notebook.a rows = Returned 0 /\ Notebook.b rows = Returned 0
    /\ Notebook.c rows = Returned 1 /\ Notebook.d rows = Returned 0.
Proof.
  eexists. split; [reflexivity |].
  exact (selected_rows_fall_in_their_cell six_proteins _ six_records false true
           six_proteins_well_formed six_proteins_observations eq_refl).
Defined.

(** each count is the length of its selection *)
Lemma counts_are_lengths_of_selections (data1 : DataFrame nat pyval) :
  Notebook.a data1 = (rows <- rows_of_cell data1 true true ;; Returned (len rows)) /\
  Notebook.b data1 = (rows <- rows_of_cell data1 true false ;; Returned (len rows)) /\
  Notebook.c data1 = (rows <- rows_of_cell data1 false true ;; Returned (len rows)) /\
  Notebook.d data1 = (rows <- rows_of_cell data1 false false ;; Returned (len rows)).
Proof.
  unfold Notebook.a, Notebook.b, Notebook.c, Notebook.d, rows_of_cell.
  destruct (getitem data1 "NativeEnt"); [| repeat split].
  destruct (getitem data1 "NonRefoldable"); repeat split.
Qed.

(** ** When Step 3 fails *)

Lemma zero_margin_dec (va vb vc vd : Z) :
  {zero_margin va vb vc vd} + {~ zero_margin va vb vc vd}.
Proof.
  unfold zero_margin.
  destruct (Z.eq_dec (va + vb) 0); [left; tauto |].
  destruct (Z.eq_dec (vc + vd) 0); [left; tauto |].
  destruct (Z.eq_dec (va + vc) 0); [left; tauto |].
  destruct (Z.eq_dec (vb + vd) 0); [left; tauto | right; tauto].
Qed.

(** on counts the test always returns *)
Lemma test_returns (va vb vc vd : Z) :
  0 <= va <= Int64.max_value -> 0 <= vb <= Int64.max_value ->
  0 <= vc <= Int64.max_value -> 0 <= vd <= Int64.max_value ->
  exists r, Notebook.test va vb vc vd = Returned r.
Proof.
  intros Ra Rb Rc Rd.
  destruct (zero_margin_dec va vb vc vd) as [M | M].
  - rewrite test_zero_margin by assumption. eexists. reflexivity.
  - rewrite test_regular by assumption. eexists. reflexivity.
Qed.

(** the four counts together never pass the number of rows *)
Lemma cells_sum_bound (data1 : DataFrame nat pyval) (obs : list record) :
  well_formed data1 ->
  observations data1 = Returned obs ->
  0 <= count (in_cell true true) obs + count (in_cell true false) obs
       + count (in_cell false true) obs + count (in_cell false false) obs
    <= len data1.
Proof.
  intros W O.
  destruct (observations_columns data1 W obs O) as (_ & _ & _ & _ & _ & L).
  split.
  - pose proof (count_nonneg (in_cell true true) obs).
    pose proof (count_nonneg (in_cell true false) obs).
    pose proof (count_nonneg (in_cell false true) obs).
    pose proof (count_nonneg (in_cell false false) obs). lia.
  - rewrite counts_sum. unfold len. rewrite <- L. apply inj_le.
    transitivity (list_sum (map (fun r => Nat.b2n (complete r)) obs)).
    + apply list_sum_map_le. intros r _. apply cells_containing_le_complete.
    + rewrite <- filter_length_b2n. apply filter_length_le.
Qed.

(** Step 3 fails only for a missing column: with [NativeEnt] missing it
    raises [KeyError] for that name, with only [NonRefoldable] missing it
    raises [KeyError] for that one, and with both columns present it
    returns; it raises no [ValueError] and no [OverflowError], whatever
    the rows hold. *)
Theorem step3_fails_only_for_a_missing_column (data1 : DataFrame nat pyval) :
  well_formed data1 ->
  len data1 <= Int64.max_value ->
  match lookup "NativeEnt" (data data1), lookup "NonRefoldable" (data data1) with
  | None, _ => Notebook.step3 data1 = Raised (KeyError "NativeEnt")
  | Some _, None => Notebook.step3 data1 = Raised (KeyError "NonRefoldable")
  | Some ne, Some nr =>
      exists r, Notebook.step3 data1 = Returned r
                /\ table r = table_of (cell_a r) (cell_b r) (cell_c r) (cell_d r)
                /\ 0 <= cell_a r + cell_b r + cell_c r + cell_d r <= len data1
  end.
Proof.
  intros W B.
  destruct (lookup "NativeEnt" (data data1)) as [ne |] eqn:L1.
  - destruct (lookup "NonRefoldable" (data data1)) as [nr |] eqn:L2.
    + assert (O : observations data1 = Returned (combine ne nr)).
      { unfold observations, getitem. now rewrite L1, L2. }
      rewrite (step3_of_counts data1 _ W O).
      destruct (test_returns (count (in_cell true true) (combine ne nr))
                             (count (in_cell true false) (combine ne nr))
                             (count (in_cell false true) (combine ne nr))
                             (count (in_cell false false) (combine ne nr)))
        as [r E]; try (now apply (count_in_range data1 _ W O)).
      rewrite E. cbn [bind]. eexists. split; [reflexivity |].
      cbn [table cell_a cell_b cell_c cell_d]. split; [reflexivity |].
      destruct (cells_sum_bound data1 _ W O) as [Lo Hi]. split; assumption.
    + unfold Notebook.step3, Notebook.a, getitem. now rewrite L1, L2.
  - unfold Notebook.step3, Notebook.a, getitem. now rewrite L1.
Qed.

Lemma step3_fails_only_for_a_missing_column_witness :
  Notebook.step3 no_outcome_column = Raised (KeyError "NonRefoldable")
  /\ Notebook.step3 (mkDataFrame [0]%nat [("gene", [PyStr "P0A6A8"])])
     = Raised (KeyError "NativeEnt")
  /\ exists r, Notebook.step3 six_proteins = Returned r
               /\ table r = table_of (cell_a r) (cell_b r) (cell_c r) (cell_d r)
               /\ 0 <= cell_a r + cell_b r + cell_c r + cell_d r <= 6.
Proof.
  split; [| split].
  - refine (step3_fails_only_for_a_missing_column no_outcome_column _ _).
    + repeat constructor.
    + apply Z.leb_le. reflexivity.
  - refine (step3_fails_only_for_a_missing_column
              (mkDataFrame [0]%nat [("gene", [PyStr "P0A6A8"])]) _ _).
    + repeat constructor.
    + apply Z.leb_le. reflexivity.
  - refine (step3_fails_only_for_a_missing_column six_proteins
              six_proteins_well_formed _).
    apply Z.leb_le. reflexivity.
Defined.

(** ** What Step 3 does not look at *)

Lemma filter_length_permutation {A : Type} (p : A -> bool) (l l' : list A) :
  Permutation l l' -> length (filter p l) = length (filter p l').
Proof.
  induction 1 as [| r l l' _ IH | r r' l | l l' l'' _ IH1 _ IH2]; simpl.
  - reflexivity.
  - destruct (p r); simpl; now rewrite IH.
  - destruct (p r), (p r'); reflexivity.
  - now rewrite IH1.
Qed.

(** The results of Step 3 depend on the records alone, not on their
    order: two frames whose (feature, outcome) records are the same up to
    the order of the rows give the same counts, table, odds ratio and
    p-value, whatever their row labels and other columns are. *)
Theorem step3_ignores_order_and_other_columns
    (data1 data2 : DataFrame nat pyval) (obs1 obs2 : list record) :
  well_formed data1 -> well_formed data2 ->
  observations data1 = Returned obs1 ->
  observations data2 = Returned obs2 ->
  Permutation obs1 obs2 ->
  Notebook.step3 data1 = Notebook.step3 data2.
Proof.
  intros W1 W2 O1 O2 P.
  rewrite (step3_of_counts data1 obs1 W1 O1), (step3_of_counts data2 obs2 W2 O2).
  assert (E : forall x y, count (in_cell x y) obs1 = count (in_cell x y) obs2).
  { intros x y. unfold count. f_equal. now apply filter_length_permutation. }
  now rewrite !E.
Qed.

Lemma step3_ignores_order_and_other_columns_witness :
  Notebook.step3 six_proteins = Notebook.step3 six_proteins_shuffled.
Proof.
  refine (step3_ignores_order_and_other_columns six_proteins six_proteins_shuffled
            six_records (rev six_records) six_proteins_well_formed _
            six_proteins_observations eq_refl (Permutation_rev six_records)).
  repeat constructor.
Defined.

(** ** Unique gene identifiers *)

Section Unique.

Lemma same_key_refl (v : pyval) : same_key v v = true.
Proof.
  destruct v as [ | x | z | f | s]; simpl.
  - reflexivity.
  - apply eqb_reflx.
  - apply Z.eqb_refl.
  - unfold is_nan. now destruct (PrimFloat.eqb f f).
  - apply String.eqb_refl.
Qed.

Lemma existsb_unseen (seen : list pyval) (v : pyval) :
  existsb (fun k => same_key k v) seen = false <-> unseen seen v.
Proof.
  unfold unseen. split.
  - intros H k Hk. destruct (same_key k v) eqn:E; [| reflexivity].
    assert (X : existsb (fun k => same_key k v) seen = true)
      by (apply existsb_exists; eauto).
    rewrite X in H. discriminate.
  - intros H. destruct (existsb _ seen) eqn:E; [| reflexivity].
    apply existsb_exists in E. destruct E as (k & Hk & E).
    rewrite (H k Hk) in E. discriminate.
Qed.

Lemma unique_from_In (seen : list pyval) (s : Series pyval) (v : pyval) :
  In v (unique_from seen s) -> In v s /\ unseen seen v.
Proof.
  revert seen. induction s as [| w s IH]; intros seen; simpl; [tauto |].
  destruct (existsb (fun k => same_key k w) seen) eqn:E.
  - intros H. destruct (IH _ H). tauto.
  - intros [<- | H].
    + split; [now left | now apply existsb_unseen].
    + destruct (IH _ H) as [Hin Hun]. split; [now right |].
      intros k Hk. apply Hun. apply in_or_app. now left.
Qed.

Lemma unique_from_distinct (seen : list pyval) (s : Series pyval) :
  distinct_keys (unique_from seen s).
Proof.
  revert seen. induction s as [| w s IH]; intros seen; simpl; [constructor |].
  destruct (existsb (fun k => same_key k w) seen); [apply IH |].
  constructor; [| apply IH].
  apply Forall_forall. intros v Hv.
  destruct (unique_from_In _ _ _ Hv) as [_ Hun].
  apply Hun. apply in_or_app. right. now left.
Qed.

Lemma unique_from_covers (seen : list pyval) (s : Series pyval) (v : pyval) :
  In v s ->
  exists k, (In k seen \/ In k (unique_from seen s)) /\ same_key k v = true.
Proof.
  revert seen. induction s as [| w s IH]; intros seen; simpl; [tauto |].
  destruct (existsb (fun k => same_key k w) seen) eqn:E.
  - intros [<- | H].
    + apply existsb_exists in E. destruct E as (k & Hk & E). exists k. tauto.
    + apply IH, H.
  - intros [<- | H].
    + exists w. split; [right; now left | apply same_key_refl].
    + destruct (IH (seen ++ [w])%list H) as (k & [Hk | Hk] & Ek).
      * apply in_app_or in Hk. destruct Hk as [Hk | [Ew | []]].
        -- exists k. tauto.
        -- exists k. split; [right; left; exact Ew | exact Ek].
      * exists k. split; [right; now right | exact Ek].
Qed.

Lemma unique_from_length_le (seen : list pyval) (s : Series pyval) :
  (length (unique_from seen s) <= length s)%nat.
Proof.
  revert seen. induction s as [| w s IH]; intros seen; simpl; [lia |].
  destruct (existsb (fun k => same_key k w) seen); simpl.
  - specialize (IH seen). lia.
  - specialize (IH (seen ++ [w])%list). lia.
Qed.

Lemma unique_from_length_eq (seen : list pyval) (s : Series pyval) :
  length (unique_from seen s) = length s <->
  Forall (unseen seen) s /\ distinct_keys s.
Proof.
  revert seen. induction s as [| w s IH]; intros seen; simpl.
  - split; [intros _; split; constructor | reflexivity].
  - destruct (existsb (fun k => same_key k w) seen) eqn:E.
    + split.
      * intros H. pose proof (unique_from_length_le seen s). lia.
      * intros [F _]. inversion F as [| ? ? U _]; subst.
        apply existsb_unseen in U. rewrite U in E. discriminate.
    + simpl. rewrite Nat.succ_inj_wd, IH. apply existsb_unseen in E.
      split.
      * intros [F D]. split.
        -- constructor; [exact E |].
           apply Forall_forall. intros v Hv k Hk.
           apply (proj1 (Forall_forall _ _) F v Hv). apply in_or_app. now left.
        -- constructor; [| exact D].
           apply Forall_forall. intros v Hv.
           apply (proj1 (Forall_forall _ _) F v Hv). apply in_or_app. right. now left.
      * intros [F D]. inversion F as [| ? ? _ F']; subst.
        inversion D as [| ? ? Fw D']; subst. split; [| exact D'].
        apply Forall_forall. intros v Hv k Hk.
        apply in_app_or in Hk. destruct Hk as [Hk | [Ew | []]].
        -- exact (proj1 (Forall_forall _ _) F' v Hv k Hk).
        -- subst k. exact (proj1 (Forall_forall _ _) Fw v Hv).
Qed.

End Unique.

Lemma unique_from_select (seen : list pyval) (s : Series pyval) :
  exists mask, length mask = length s /\ unique_from seen s = select mask s.
Proof.
  revert seen. induction s as [| w s IH]; intros seen; simpl.
  - exists []. split; reflexivity.
  - destruct (existsb (fun k => same_key k w) seen).
    + destruct (IH seen) as (mask & L & E). exists (false :: mask).
      split; [simpl; now rewrite L | exact E].
    + destruct (IH (seen ++ [w])%list) as (mask & L & E). exists (true :: mask).
      split; [simpl; now rewrite L | simpl; now rewrite E].
Qed.

(** on a series of strings, sharing no key is having no repetition *)
Lemma distinct_keys_NoDup (s : Series pyval) :
  Forall (fun v => exists t, v = PyStr t) s ->
  (distinct_keys s <-> NoDup s).
Proof.
  unfold distinct_keys. induction s as [| v s IH]; intros F.
  - split; constructor.
  - inversion F as [| ? ? [t ->] F']; subst. specialize (IH F').
    split; intros H.
    + inversion H as [| ? ? Fv D]; subst. constructor; [| now apply IH].
      intros Hin.
      pose proof (proj1 (Forall_forall _ _) Fv _ Hin) as E.
      simpl in E. rewrite String.eqb_refl in E. discriminate.
    + inversion H as [| ? ? Nin N]; subst. constructor; [| now apply IH].
      apply Forall_forall. intros w Hw.
      destruct (proj1 (Forall_forall _ _) F' w Hw) as [u ->]. simpl.
      apply String.eqb_neq. intros ->. now apply Nin.
Qed.

(** [unique] keeps one entry for each key of the series: its entries are
    entries of the series, in the order of the series; no two of them
    share a key; and every entry of the series has its key among them. *)
Theorem unique_keeps_one_entry_per_key (s : Series pyval) :
  (exists mask, length mask = length s /\ unique s = select mask s)
  /\ (forall v, In v (unique s) -> In v s)
  /\ distinct_keys (unique s)
  /\ (forall v, In v s -> exists k, In k (unique s) /\ same_key k v = true).
Proof.
  unfold unique. split; [apply unique_from_select |]. split; [| split].
  - intros v H. now destruct (unique_from_In _ _ _ H).
  - apply unique_from_distinct.
  - intros v H. destruct (unique_from_covers [] s v H) as (k & [[] | Hk] & E).
    exists k. tauto.
Qed.

(** The number of unique genes that the notebook prints is at most the
    number of rows, and it is the number of rows exactly when no two
    entries of the [gene] column share a key, which for a column of
    strings says that no identifier is repeated. *)
Theorem unique_genes_counts_distinct_identifiers
    (data1 : DataFrame nat pyval) (gene : Series pyval) :
  well_formed data1 ->
  getitem data1 "gene" = Returned gene ->
  exists n,
    Explore.unique_genes data1 = Returned n
    /\ 0 <= n <= len data1
    /\ (n = len data1 <-> distinct_keys gene)
    /\ (Forall (fun v => exists t, v = PyStr t) gene ->
        (n = len data1 <-> NoDup gene)).
Proof.
  intros W G. unfold Explore.unique_genes. rewrite G. cbn [bind].
  eexists. split; [reflexivity |].
  pose proof (column_length data1 W "gene" gene G) as L.
  pose proof (unique_from_length_le [] gene) as Le.
  assert (E : series_len (unique gene) = len data1 <-> distinct_keys gene).
  { unfold series_len, len, unique. rewrite <- L, Nat2Z.inj_iff.
    rewrite unique_from_length_eq. split; [tauto |].
    intros D. split; [| exact D]. apply Forall_forall. intros v _ k []. }
  split; [unfold series_len, len, unique; lia |]. split; [exact E |].
  intros S. rewrite E. now apply distinct_keys_NoDup.
Qed.

Lemma unique_genes_counts_distinct_identifiers_witness :
  (exists n, Explore.unique_genes six_proteins = Returned n /\ n = len six_proteins)
  /\ (exists n, Explore.unique_genes repeated_gene = Returned n
                /\ n <> len repeated_gene).
Proof.
  split.
  - destruct (unique_genes_counts_distinct_identifiers six_proteins _
                six_proteins_well_formed eq_refl) as (n & E & _ & _ & S).
    exists n. split; [exact E |]. apply S.
    + repeat constructor; eexists; reflexivity.
    + repeat constructor; simpl; intuition discriminate.
  - assert (W : well_formed repeated_gene) by repeat constructor.
    destruct (unique_genes_counts_distinct_identifiers repeated_gene _ W eq_refl)
      as (n & E & _ & _ & S).
    exists n. split; [exact E |]. intros H. apply S in H.
    + inversion H as [| ? ? Nin _]. apply Nin. simpl. tauto.
    + repeat constructor; eexists; reflexivity.
Defined.

(** ** The first rows *)

(** [head] returns a rectangular frame with the same columns, whose rows
    are the first [n] rows of the frame (all of them when there are fewer;
    all but the last [-n] when [n] is negative): each of its columns is
    the beginning of the column it comes from. *)
Theorem head_takes_the_first_rows
    {I A : Type} (df : DataFrame I A) (n : Z) :
  well_formed df ->
  well_formed (head df n)
  /\ columns (head df n) = columns df
  /\ len (head df n) = (if 0 <=? n then Z.min n (len df) else Z.max 0 (len df + n))
  /\ (forall name s,
        getitem df name = Returned s ->
        exists s' rest,
          getitem (head df n) name = Returned s'
          /\ s = (s' ++ rest)%list
          /\ series_len s' = len (head df n)).
Proof.
  intros W. unfold head.
  set (k := if 0 <=? n then Z.to_nat n else Z.to_nat (len df + n)).
  split; [| split; [| split]].
  - unfold well_formed. cbn [index data].
    apply Forall_forall. intros col Hin.
    apply in_map_iff in Hin. destruct Hin as (col0 & <- & Hin0). cbn [snd].
    pose proof (proj1 (Forall_forall _ _) W col0 Hin0) as Lc. cbn beta in Lc.
    now rewrite !length_firstn, Lc.
  - unfold columns. cbn [data]. rewrite map_map. reflexivity.
  - unfold len. cbn [index]. rewrite length_firstn. subst k. unfold len.
    destruct (Z.leb_spec 0 n); lia.
  - intros name s G. unfold getitem in *. cbn [data].
    rewrite lookup_map.
    destruct (lookup name (data df)) as [s0 |] eqn:E; [| discriminate].
    injection G as ->. cbn [option_map].
    exists (firstn k s), (skipn k s).
    split; [reflexivity |]. split; [now rewrite firstn_skipn |].
    destruct (lookup_In _ _ _ E) as [name' Hin].
    pose proof (proj1 (Forall_forall _ _) W _ Hin) as Lc. cbn [snd] in Lc.
    unfold series_len, len. cbn [index]. now rewrite !length_firstn, Lc.
Qed.

Lemma head_takes_the_first_rows_witness :
  len (Explore.first_rows six_proteins) = 6
  /\ len (head six_proteins 2) = 2
  /\ len (head six_proteins (-2)) = 4
  /\ well_formed (head six_proteins 2).
Proof.
  split; [| split; [| split]].
  - exact (proj1 (proj2 (proj2 (head_takes_the_first_rows six_proteins 10
                                  six_proteins_well_formed)))).
  - exact (proj1 (proj2 (proj2 (head_takes_the_first_rows six_proteins 2
                                  six_proteins_well_formed)))).
  - exact (proj1 (proj2 (proj2 (head_takes_the_first_rows six_proteins (-2)
                                  six_proteins_well_formed)))).
  - exact (proj1 (head_takes_the_first_rows six_proteins 2 six_proteins_well_formed)).
Defined.

(** ** The table that is drawn *)

Lemma nth_map_in_range {A B : Type} (f : A -> B) (l : list A) (i : nat) (d : A) (e : B) :
  (i < length l)%nat -> nth i (map f l) e = f (nth i l d).
Proof.
  revert i. induction l as [| x l IH]; intros [| i] H; simpl in *; try lia.
  - reflexivity.
  - apply IH. lia.
Qed.

Lemma no_column_found (name : string) (names : list string) :
  ~ In name names -> existsb (String.eqb name) names = false.
Proof.
  intros H. destruct (existsb _ names) eqn:E; [| reflexivity].
  apply existsb_exists in E. destruct E as (x & Hx & E).
  apply String.eqb_eq in E. subst x. contradiction.
Qed.

(** For a table without a column named [index], the cell texts handed to
    the drawing are one row for each row label: the label, then the
    numbers of that row of the array that the test receives; every row
    is as wide as the list of column labels. *)
Theorem cell_text_shows_the_tested_table (t : DataFrame string Z) :
  well_formed t ->
  ~ In "index" (columns t) ->
  exists cells,
    Display.cell_text t = Returned cells
    /\ length cells = length (index t)
    /\ Forall (fun row => length row = length (Display.col_labels t)) cells
    /\ (forall i label,
          nth_error (index t) i = Some label ->
          nth_error cells i = Some (PyStr label :: map PyInt (nth i (values t) []))).
Proof.
  intros W N. unfold Display.cell_text, reset_index.
  rewrite (no_column_found _ _ N), (no_column_found _ _ N). cbn [bind].
  eexists. split; [reflexivity |].
  unfold values_tolist. cbn [index data]. rewrite length_seq.
  split; [now rewrite length_map, length_seq |]. split.
  - apply Forall_forall. intros row Hin.
    apply in_map_iff in Hin. destruct Hin as (i & <- & _).
    unfold Display.col_labels, columns. simpl. now rewrite !length_map.
  - intros i label Hi.
    assert (Li : (i < length (index t))%nat)
      by (apply nth_error_Some; rewrite Hi; discriminate).
    rewrite nth_error_map, (nth_error_nth' _ 0%nat) by now rewrite length_seq.
    rewrite seq_nth by exact Li. cbn [option_map plus map snd].
    f_equal. f_equal.
    + rewrite (nth_map_in_range PyStr _ _ ""%string) by exact Li.
      f_equal. now apply nth_error_nth.
    + unfold values.
      rewrite (nth_map_in_range _ _ _ 0%nat) by now rewrite length_seq.
      rewrite seq_nth by exact Li. cbn [plus].
      rewrite !map_map. apply map_ext_in. intros col Hin. cbn [snd].
      apply nth_map_in_range.
      pose proof (proj1 (Forall_forall _ _) W col Hin) as Lc. cbn beta in Lc.
      now rewrite Lc.
Qed.

Lemma cell_text_shows_the_tested_table_witness :
  exists cells,
    Display.cell_text (table_of 30 18 16 65) = Returned cells
    /\ length cells = 2%nat
    /\ Forall (fun row => length row = 3%nat) cells
    /\ nth_error cells 1
       = Some [PyStr "Protein Not Entangled"; PyInt 16; PyInt 65].
Proof.
  assert (W : well_formed (table_of 30 18 16 65)) by repeat constructor.
  assert (N : ~ In "index" (columns (table_of 30 18 16 65)))
    by (simpl; intuition discriminate).
  destruct (cell_text_shows_the_tested_table (table_of 30 18 16 65) W N)
    as (cells & E & L & F & R).
  exists cells. split; [exact E |]. split; [exact L |]. split; [exact F |].
  exact (R 1%nat "Protein Not Entangled" eq_refl).
Defined.

(** ** More on the odds ratio *)

Lemma wrap_in_range (z : Z) : Int64.in_range (Int64.wrap z) = true.
Proof.
  unfold Int64.in_range, Int64.wrap, Int64.min_value, Int64.max_value.
  change (2 ^ 63) with 9223372036854775808.
  change (2 ^ 64) with 18446744073709551616.
  pose proof (Z.mod_pos_bound (z + 9223372036854775808) 18446744073709551616).
  apply andb_true_intro. split; apply Z.leb_le; lia.
Qed.

(** The int64 product of two counts is their product exactly when the
    product fits a signed 64-bit integer; in every case it is an int64
    that differs from the product by a multiple of 2^64. *)
Theorem int64_product_is_exact_iff_it_fits (x y : Z) :
  0 <= x -> 0 <= y ->
  (Int64.mul x y = x * y <-> x * y <= Int64.max_value)
  /\ Int64.in_range (Int64.mul x y) = true
  /\ exists q, Int64.mul x y = x * y - q * 2 ^ 64.
Proof.
  intros Hx Hy. split; [| split].
  - split.
    + intros E. pose proof (wrap_in_range (x * y)) as R.
      unfold Int64.mul in E. rewrite E in R.
      unfold Int64.in_range in R. apply andb_true_iff in R.
      destruct R as [_ R]. now apply Z.leb_le in R.
    + intros H. now apply mul_small.
  - apply wrap_in_range.
  - unfold Int64.mul, Int64.wrap.
    change (2 ^ 63) with 9223372036854775808.
    change (2 ^ 64) with 18446744073709551616.
    exists ((x * y + 9223372036854775808) / 18446744073709551616).
    pose proof (Z.div_mod (x * y + 9223372036854775808) 18446744073709551616).
    lia.
Qed.

Lemma int64_product_is_exact_iff_it_fits_witness :
  Int64.mul 30 65 = 1950 /\ Int64.mul 3037000500 3037000500 <> 3037000500 * 3037000500.
Proof.
  destruct (int64_product_is_exact_iff_it_fits 30 65) as ([_ Fits] & _);
    [discriminate | discriminate |].
  destruct (int64_product_is_exact_iff_it_fits 3037000500 3037000500)
    as ([Exact _] & _); [discriminate | discriminate |].
  split.
  - apply Fits. discriminate.
  - intros E. apply Exact in E. now apply E.
Defined.

Lemma zero_margin_swapped (va vb vc vd : Z) :
  zero_margin va vb vc vd <-> zero_margin vd vc vb va.
Proof. unfold zero_margin. lia. Qed.

Lemma zero_margin_transposed (va vb vc vd : Z) :
  zero_margin va vb vc vd <-> zero_margin va vc vb vd.
Proof. unfold zero_margin. lia. Qed.

(** The odds ratio that the test returns is the same double, bit for bit
    (NaN, infinity and wrapped products included), when the table is
    transposed and when both its rows and its columns are swapped. *)
Theorem odds_ratio_is_symmetric (va vb vc vd : Z) :
  0 <= va <= Int64.max_value -> 0 <= vb <= Int64.max_value ->
  0 <= vc <= Int64.max_value -> 0 <= vd <= Int64.max_value ->
  statistic (Notebook.test va vc vb vd) = statistic (Notebook.test va vb vc vd)
  /\ statistic (Notebook.test vd vc vb va) = statistic (Notebook.test va vb vc vd).
Proof.
  intros Ra Rb Rc Rd.
  destruct (zero_margin_dec va vb vc vd) as [M | M].
  - rewrite (test_zero_margin va vb vc vd) by assumption.
    rewrite (test_zero_margin va vc vb vd)
      by (try assumption; now apply zero_margin_transposed).
    rewrite (test_zero_margin vd vc vb va)
      by (try assumption; now apply zero_margin_swapped).
    split; reflexivity.
  - rewrite (test_regular va vb vc vd) by assumption.
    rewrite (test_regular va vc vb vd)
      by (try assumption; now rewrite <- zero_margin_transposed).
    rewrite (test_regular vd vc vb va)
      by (try assumption; now rewrite <- zero_margin_swapped).
    unfold statistic. cbn [fst]. unfold Int64.mul.
    rewrite (andb_comm (vb >? 0) (vc >? 0)).
    rewrite (Z.mul_comm vb vc), (Z.mul_comm vd va).
    split; reflexivity.
Qed.

Lemma odds_ratio_is_symmetric_witness :
  statistic (Notebook.test 30 16 18 65) = Some (1950 / 288)%float
  /\ statistic (Notebook.test 65 16 18 30) = Some (1950 / 288)%float.
Proof.
  exact (odds_ratio_is_symmetric 30 18 16 65
           (small_count_in_range 30 eq_refl) (small_count_in_range 18 eq_refl)
           (small_count_in_range 16 eq_refl) (small_count_in_range 65 eq_refl)).
Defined.

(** ** Building a frame and reading it as an array *)




(** The array that the test reads from a rectangular frame has one row
    for each row label and one entry in each row for each column; the
    entry in row [i] and column [j] is entry [i] of column [j], so the
    columns of the frame stand side by side; and the conversion to int64
    returns that array whenever every entry of the frame fits. *)
Theorem values_lays_columns_side_by_side {I : Type} (t : DataFrame I Z) :
  well_formed t ->
  length (values t) = length (index t)
  /\ Forall (fun row => length row = length (columns t)) (values t)
  /\ (forall i j name s,
        (i < length (index t))%nat ->
        nth_error (data t) j = Some (name, s) ->
        nth j (nth i (values t) []) 0 = nth i s 0)
  /\ (Forall (fun col => Forall (fun z => Int64.in_range z = true) (snd col)) (data t) ->
      asarray_int64 t = Returned (values t)).
Proof.
  intros W. unfold values. split; [| split; [| split]].
  - now rewrite length_map, length_seq.
  - apply Forall_forall. intros row Hin.
    apply in_map_iff in Hin. destruct Hin as (i & <- & _).
    unfold columns. now rewrite !length_map.
  - intros i j name s Hi Hj.
    rewrite (nth_map_in_range _ _ _ 0%nat) by now rewrite length_seq.
    rewrite seq_nth by exact Hi. cbn [plus].
    assert (Lj : (j < length (data t))%nat)
      by (apply nth_error_Some; rewrite Hj; discriminate).
    rewrite (nth_map_in_range _ _ _ (name, s)) by exact Lj.
    now rewrite (nth_error_nth _ _ (name, s) Hj).
  - intros R. unfold asarray_int64, values.
    assert (E : forallb (forallb Int64.in_range)
                  (map (fun i => map (fun col => nth i (snd col) 0) (data t))
                       (seq 0 (length (index t)))) = true).
    { apply forallb_forall. intros row Hin.
      apply in_map_iff in Hin. destruct Hin as (i & <- & Hi).
      apply in_seq in Hi.
      apply forallb_forall. intros z Hz.
      apply in_map_iff in Hz. destruct Hz as (col & <- & Hcol).
      pose proof (proj1 (Forall_forall _ _) W col Hcol) as Lc. cbn beta in Lc.
      pose proof (proj1 (Forall_forall _ _) R col Hcol) as Rc. cbn beta in Rc.
      apply (proj1 (Forall_forall _ _) Rc). apply nth_In. lia. }
    now rewrite E.
Qed.

Lemma values_lays_columns_side_by_side_witness :
  values (table_of 30 18 16 65) = [[30; 18]; [16; 65]]
  /\ nth 1 (nth 0 (values (table_of 30 18 16 65)) []) 0 = 18
  /\ asarray_int64 (table_of 30 18 16 65) = Returned (values (table_of 30 18 16 65)).
Proof.
  assert (W : well_formed (table_of 30 18 16 65)) by repeat constructor.
  destruct (values_lays_columns_side_by_side (table_of 30 18 16 65) W)
    as (_ & _ & T & R).
  split; [reflexivity |]. split.
  - apply (T 0%nat 1%nat "Protein Not Misfolded" [18; 65]); [simpl; lia | reflexivity].
  - apply R. repeat constructor.
Defined.
